(** * UCNsource: steady-state balance of a cryogenic UCN source cooling loop

    Shallow embedding of [UCNsource.py] and the properties its
    specification states about it.

    Number model.  Python floats are read as real numbers ([R]): sums,
    products and quotients are exact, comparisons are the order of [R].
    The one value a real number cannot carry, the NaN the boiling-curve
    interpolator returns outside its table, is [None] of an [option R].
    Division is the total division of [R]; a statement that goes through a
    quotient says that its divisor is not zero.  Where rounding decides a
    property (the sweep grid), the source line is also embedded over
    binary64 in [Module Binary64].

    Collaborators.  [hepak], [he3pak] and the [scipy] routines are outside
    the repository; each is an interface (a type class) whose operations
    the sub-models call, so every theorem holds for all implementations.
    The interpolator that [loadHe3boilingData] builds from the data files is
    such an interface too.

    Data.  The vector of unknowns is a triple, the shape of the start vector
    [[0.002, 1.8, 1.]].  The [parameters] dictionary is a total map over its
    twenty keys; a Result Record is a finite map from strings to numbers,
    filled by assignments as in the source.

    Output.  [print] appends a [Message] to a log; a function that prints
    returns its value together with the messages it printed.  The calls that
    draw and save the plots are presentation and are left out: the sweep
    ends with the lists the plots are drawn from.

    Exceptions.  Where the source can raise on its way (reading the data
    files, subscripting the result of a failed solve), the value is the
    exception or the result. *)

From Stdlib Require Import Reals Lra Floats FunctionalExtensionality.
From stdpp Require Import gmap strings list.

Open Scope R_scope.

(** ** Data model *)

(** First argument of [hepak.HeCalc]: a property is named by a string
    (['H'], ['T'], ['D'], ['P']) or by its number ([7], [38]). *)
Inductive HeIndex :=
| Name (s : string)
| Index (n : Z).

(** The helium-4 property library [hepak]. *)
Class hepak := {
  HeCalc : HeIndex -> Z -> string -> R -> string -> R -> Z -> R;
  HeConst : Z -> R
}.

(** The helium-3 property library [he3pak]. *)
Class he3pak := {
  He3Density : R -> R -> R;
  He3Prop : Z -> R -> R -> R;
  He3SaturatedVaporProp : Z -> R -> R;
  He3SaturatedLiquidProp : Z -> R -> R;
  He3SaturatedTemperature : R -> R
}.

(** What the program prints. *)
Inductive Message :=
| He3_outside_boiling_range
| T_4He_outside_HEPAK_range (T : R)
| Conductivity_not_positive
| Solution_did_not_converge
| Sweep_parameter (p : string)
| Sweep_value (v : R) (u : string).

(** A computation that prints: its value and the messages, oldest first. *)
Definition Printing (A : Type) : Type := A * list Message.

Definition ret {A} (a : A) : Printing A := (a, []).

Definition bind {A B} (m : Printing A) (k : A -> Printing B) : Printing B :=
  let (a, l1) := m in let (b, l2) := k a in (b, l1 ++ l2).

Definition print (m : Message) : Printing unit := (tt, [m]).

Notation "'do' x <- m ; k" := (bind m (fun x => k))
  (at level 10, x name, m at level 100, k at level 200,
   format "'[v' 'do'  x  <-  m ; '/' k ']'").
Notation "'run' m ; k" := (bind m (fun _ => k))
  (at level 10, m at level 100, k at level 200,
   format "'[v' 'run'  m ; '/' k ']'").

(** Python's [max(a, b)] and [min(a, b)] keep the first argument unless the
    second is strictly greater (smaller). *)
Definition pymax (a b : R) : R := if Rlt_dec a b then b else a.
Definition pymin (a b : R) : R := if Rlt_dec b a then b else a.

(** ** Sub-model functions *)

Section SubModels.
Context `{HP : hepak} `{H3 : he3pak}.

(* cooling power required to cool He flow from inlet temperature to
   outlet temperature *)
Definition HeCoolingLoad (flow pressure inletTemperature outletTemperature : R) : R :=
  let outletTemperature := pymax (HeConst 3) outletTemperature in
  flow * (HeCalc (Name "H") 0 "P" pressure "T" inletTemperature 1
          - HeCalc (Name "H") 0 "P" pressure "T" outletTemperature 1).

(* flow required to remove heat load *)
Definition HeCoolingFlow (heatLoad pressure inletTemperature outletTemperature : R) : R :=
  heatLoad / (HeCalc (Name "H") 0 "P" pressure "T" outletTemperature 1
              - HeCalc (Name "H") 0 "P" pressure "T" inletTemperature 1).

(* cooling power required to cool He3 flow from inlet temperature to
   outlet temperature *)
Definition He3CoolingLoad (flow pressure inletTemperature outletTemperature : R) : R :=
  let inletDensity := He3Density pressure inletTemperature in
  let inletEnthalpy := He3Prop 6 inletDensity inletTemperature in
  let outletDensity := He3Density pressure outletTemperature in
  let outletEnthalpy := He3Prop 6 outletDensity outletTemperature in
  flow * (inletEnthalpy - outletDensity).

(* evaporation rate of the helium reservoir when flowing He3 through it *)
Definition HeReservoirEvaporation
    (He3Flow He3Pressure He3InletTemperature IPFlow IPPressure IPInletTemperature
     reservoirPressure : R) : R :=
  let reservoirTemperature := HeCalc (Name "T") 0 "P" reservoirPressure "SV" 0 1 in
  let He3HeatLoad := He3CoolingLoad He3Flow He3Pressure He3InletTemperature reservoirTemperature in
  let IPHeatLoad := HeCoolingLoad IPFlow IPPressure IPInletTemperature reservoirTemperature in
  (He3HeatLoad + IPHeatLoad) / HeCalc (Index 7) 0 "P" reservoirPressure "SL" 0 1.

(* required flow to cool 20K and 100K shields *)
Definition shieldFlow (IPFlow IPPressure inletPressure : R) : R * R :=
  let IPHeatLoad_100 := HeCoolingLoad IPFlow IPPressure 300 100 in
  let IPHeatLoad_20 := HeCoolingLoad IPFlow IPPressure 100 20 in
  let flow_20 := HeCoolingFlow (4.3 + 0.7 + 1.1 + 2 + 6.6 + IPHeatLoad_20) inletPressure 10 20 in
  let flow_100 := HeCoolingFlow (49 + 8.9 + 5.7 + 14 + IPHeatLoad_100) inletPressure 30 100 in
  (flow_20, flow_100).

(* 1K pot temperature when pumping away a certain gas flow *)
Definition OneKPotTemperature (HeFlow pumpingSpeed pumpInletTemperature pumpingPressureDrop : R) : R :=
  let HeFlow := pymax 0 (pymin HeFlow 0.1) in
  let pumpInletPressure := HeFlow * HeConst 4 * pumpInletTemperature / (pumpingSpeed / 3600) in
  let T := HeCalc (Name "T") 0 "P" (pumpInletPressure + pumpingPressureDrop) "SL" 0 1 in
  T.

(* evaporation rate from 1K pot at certain temperature and He3 flow *)
Definition OneKPotEvaporation
    (He3Flow He3Pressure He3InletTemperature IPFlow IPPressure IPInletTemperature
     HeInletPressure HeInletTemperature OneKPotTemperature : R) : R :=
  let He3HeatLoad := He3CoolingLoad He3Flow He3Pressure He3InletTemperature OneKPotTemperature in
  let IPHeatLoad := HeCoolingLoad IPFlow IPPressure IPInletTemperature OneKPotTemperature in
  let HeInletEnthalpy := HeCalc (Name "H") 0 "T" HeInletTemperature "P" HeInletPressure 1 in
  let HeVaporEnthalpy := HeCalc (Name "H") 0 "T" OneKPotTemperature "SV" 0 1 in
  let HeLiquidEnthalpy := HeCalc (Name "H") 0 "T" OneKPotTemperature "SL" 0 1 in
  let liquidFraction := (HeInletEnthalpy - HeVaporEnthalpy) / (HeLiquidEnthalpy - HeVaporEnthalpy) in
  (He3HeatLoad + IPHeatLoad) / HeCalc (Index 7) 0 "T" OneKPotTemperature "SL" 0 1 / liquidFraction.

(* He3 flow through JT valve required to remove heatLoad *)
Definition He3Flow (inletTemperature inletPressure temperature heatLoad : R) : R :=
  let inletDensity := He3Density inletPressure inletTemperature in
  let inletEnthalpy := He3Prop 6 inletDensity inletTemperature in
  let vaporEnthalpy := He3SaturatedVaporProp 6 temperature in
  let liquidEnthalpy := He3SaturatedLiquidProp 6 temperature in
  let liquidFraction := (inletEnthalpy - vaporEnthalpy) / (liquidEnthalpy - vaporEnthalpy) in
  let latentHeat := He3SaturatedLiquidProp 13 temperature in
  let liquidFlow := heatLoad / latentHeat in
  liquidFlow / liquidFraction.

(* He3 temperature when pumping away a certain gas flow *)
Definition He3Temperature (He3Flow pumpingSpeed pumpInletTemperature pumpingPressureDrop : R) : R :=
  let specificGasConstant := 2756.7579 in
  let pumpInletPressure :=
    He3Flow * specificGasConstant * pumpInletTemperature / (pumpingSpeed / 3600) in
  He3SaturatedTemperature (pumpInletPressure + pumpingPressureDrop).

End SubModels.

(** ** Boiling curve, heat exchanger and He-II channel *)

(** [He3boilingData], the interpolator [loadHe3boilingData] builds once from
    the measured boiling curves.  Outside the convex hull of the data scipy's
    [LinearNDInterpolator] returns NaN: [None] here. *)
Class BoilingCurve := { He3boilingData : R -> R -> option R }.

(** The [scipy] routines the solver calls.  [root] is handed the residual
    (which may print) and the start vector; [solve_ivp] is handed the
    right-hand side, the interval and the initial value, and yields the row
    [result.y[0]] of the solution. *)
Module OptimizeResult.
Record t := { success : bool; x : R * R * R }.
End OptimizeResult.

Class scipy := {
  root : (R * R * R -> Printing (R * R * R)) -> R * R * R -> Printing OptimizeResult.t;
  solve_ivp : (R -> R -> Printing R) -> R * R -> R -> Printing (list R)
}.

Section Conduction.
Context `{HP : hepak} `{BC : BoilingCurve} `{SP : scipy}.

(** The heat-transfer area of the finned tube: the [area] of
    [HEX1Temperature], named so that statements can speak of the heat flux. *)
Definition HEX1area (HEX1length HEX1diameter finHeight finPitch : R) : R :=
  HEX1diameter * PI * HEX1length / 2
  + (HEX1diameter + 2 * finHeight) * PI * HEX1length / 2
  + ((HEX1diameter / 2 + finHeight) ^ 2 - (HEX1diameter / 2) ^ 2)
    * PI * (HEX1length / finPitch) * 2.

(* temperature of HEX1 by interpolating measured He3 boiling curve *)
Definition HEX1Temperature
    (T_He3 HEX1length HEX1diameter finHeight finPitch heatLoad : R) : Printing R :=
  if Rle_dec heatLoad 0 then ret T_He3 else
  let numberFins := HEX1length / finPitch in
  let area := HEX1diameter * PI * HEX1length / 2
              + (HEX1diameter + 2 * finHeight) * PI * HEX1length / 2
              + ((HEX1diameter / 2 + finHeight) ^ 2 - (HEX1diameter / 2) ^ 2)
                * PI * numberFins * 2 in
  let q := heatLoad / area in
  match He3boilingData T_He3 q with
  | None => run print He3_outside_boiling_range; ret T_He3
  | Some dT => ret (T_He3 + dT)
  end.

(* temperature of HeII at HEX1 from empirical Kapitza conductance *)
Definition He4Temperature (T_Cu HEX1length HEX1diameter heatLoad : R) : R :=
  let A := HEX1diameter * PI * HEX1length in
  let h := 900 * T_Cu ^ 3 in
  T_Cu + heatLoad / A / h.

(** The local function [dTdx] of [HeIItemperature], with the variables it
    closes over ([pressure], [heatLoad], [A]) as leading arguments. *)
Definition dTdx (pressure heatLoad A : R) (x T : R) : Printing R :=
  if Rlt_dec T (HeConst 3) then
    run print (T_4He_outside_HEPAK_range T); ret 0
  else
    let k := HeCalc (Index 38) 0 "P" pressure "T" T 1 in
    if Rlt_dec 0 k then ret ((heatLoad / A) ^ 3 / k)
    else run print Conductivity_not_positive; ret 0.

(* temperature profile of He-II in conduction channel from Gorter-Mellink
   equation; [result.y[0][-1]] is the last entry of the row *)
Definition HeIItemperature (x T_low pressure heatLoad channelDiameter : R) : Printing R :=
  if Req_dec_T heatLoad 0 then ret T_low else
  let A := PI * channelDiameter ^ 2 / 4 in
  do result <- solve_ivp (dTdx pressure heatLoad A) (0, x) T_low;
  ret (List.last result 0).

End Conduction.

(** ** Parameters *)

(** The keys of the [parameters] dictionary.  The dictionary is a literal
    and only the values stored under its keys ever change, so a parameter
    set is a total map from these keys. *)
Inductive ParamName :=
| He3_pumping_speed | He_pumping_speed | Pump_inlet_temperature
| He3_inlet_pressure | Beam_heating | Static_heat | He3_pressure_drop
| He_pressure_drop | Channel_diameter | Channel_length | HEX1_length
| HEX1_fin_height | HEX1_fin_pitch | HeII_overfill | He_reservoir_pressure
| OneK_pot_inlet_temperature | He_reservoir_inlet_temperature
| Isopure_He_flow | Isopure_He_inlet_temperature | Isopure_He_pressure.

#[global] Instance ParamName_eq_dec : EqDecision ParamName.
Proof. solve_decision. Defined.

(** The key as the source spells it. *)
Definition key (p : ParamName) : string :=
  match p with
  | He3_pumping_speed => "3He pumping speed"
  | He_pumping_speed => "He pumping speed"
  | Pump_inlet_temperature => "Pump inlet temperature"
  | He3_inlet_pressure => "3He inlet pressure"
  | Beam_heating => "Beam heating"
  | Static_heat => "Static heat"
  | He3_pressure_drop => "3He pressure drop"
  | He_pressure_drop => "He pressure drop"
  | Channel_diameter => "Channel diameter"
  | Channel_length => "Channel length"
  | HEX1_length => "HEX1 length"
  | HEX1_fin_height => "HEX1 fin height"
  | HEX1_fin_pitch => "HEX1 fin pitch"
  | HeII_overfill => "HeII overfill"
  | He_reservoir_pressure => "He reservoir pressure"
  | OneK_pot_inlet_temperature => "1K pot inlet temperature"
  | He_reservoir_inlet_temperature => "He reservoir inlet temperature"
  | Isopure_He_flow => "Isopure He flow"
  | Isopure_He_inlet_temperature => "Isopure He inlet temperature"
  | Isopure_He_pressure => "Isopure He pressure"
  end.

(** The keys in the order of the literal, which is the order [enumerate]
    visits them in. *)
Definition keys : list ParamName :=
  [ He3_pumping_speed; He_pumping_speed; Pump_inlet_temperature;
    He3_inlet_pressure; Beam_heating; Static_heat; He3_pressure_drop;
    He_pressure_drop; Channel_diameter; Channel_length; HEX1_length;
    HEX1_fin_height; HEX1_fin_pitch; HeII_overfill; He_reservoir_pressure;
    OneK_pot_inlet_temperature; He_reservoir_inlet_temperature;
    Isopure_He_flow; Isopure_He_inlet_temperature; Isopure_He_pressure ].

Record ParameterEntry := { value : R; range : R * R; unit : string }.

Definition ParameterSet : Type := ParamName -> ParameterEntry.

Definition parameters : ParameterSet := fun p =>
  match p with
  | He3_pumping_speed => {| value := 5000; range := (300, 10000); unit := "m$^{3}$/h" |}
  | He_pumping_speed => {| value := 2000; range := (500, 5000); unit := "m$^{3}$/h" |}
  | Pump_inlet_temperature => {| value := 290; range := (100, 300); unit := "K" |}
  | He3_inlet_pressure => {| value := 50000; range := (50000, 100000); unit := "Pa" |}
  | Beam_heating => {| value := 8.1; range := (0, 10); unit := "W" |}
  | Static_heat => {| value := 1; range := (0.1, 2); unit := "W" |}
  | He3_pressure_drop => {| value := 200; range := (0, 1000); unit := "Pa" |}
  | He_pressure_drop => {| value := 200; range := (0, 1000); unit := "Pa" |}
  | Channel_diameter => {| value := 0.148; range := (0.1, 0.2); unit := "m" |}
  | Channel_length => {| value := 2.5; range := (1, 4); unit := "m" |}
  | HEX1_length => {| value := 0.6; range := (0.1, 0.6); unit := "m" |}
  | HEX1_fin_height => {| value := 0.001; range := (0, 0.003); unit := "m" |}
  | HEX1_fin_pitch => {| value := 0.002; range := (0.0005, 0.005); unit := "m" |}
  | HeII_overfill => {| value := 0.05; range := (0.01, 0.2); unit := "m" |}
  | He_reservoir_pressure => {| value := 120000; range := (90000, 150000); unit := "Pa" |}
  | OneK_pot_inlet_temperature => {| value := 2.8; range := (2, 4); unit := "K" |}
  | He_reservoir_inlet_temperature => {| value := 8; range := (6, 12); unit := "K" |}
  | Isopure_He_flow => {| value := 0; range := (0, 0); unit := "kg/s" |}
  | Isopure_He_inlet_temperature => {| value := 20; range := (10, 40); unit := "K" |}
  | Isopure_He_pressure => {| value := 10000; range := (1000, 50000); unit := "Pa" |}
  end.

(** [params[p]['value'] = v] *)
Definition setValue (params : ParameterSet) (p : ParamName) (v : R) : ParameterSet :=
  fun q => if decide (q = p)
           then {| value := v; range := range (params p); unit := unit (params p) |}
           else params q.

(** ** Equation set and solver *)

#[global] Instance R_inhabited : Inhabited R := populate 0.

Section Solver.
Context `{HP : hepak} `{H3 : he3pak} `{BC : BoilingCurve} `{SP : scipy}.

(* x: [3He flow, 1K pot temperature, 4He temperature at HEX1] *)
Definition equationSet (x : R * R * R) (parameters : ParameterSet) : Printing (R * R * R) :=
  let '(x0, x1, x2) := x in
  let heatLoad := value (parameters Beam_heating) + value (parameters Static_heat)
                  + HeCoolingLoad (value (parameters Isopure_He_flow))
                      (value (parameters Isopure_He_pressure)) x1 x2 in
  let T_He3 := He3Temperature x0 (value (parameters He3_pumping_speed))
                 (value (parameters Pump_inlet_temperature))
                 (value (parameters He3_pressure_drop)) in
  let flow := He3Flow x1 (value (parameters He3_inlet_pressure)) T_He3 heatLoad in
  let reservoirTemperature :=
    HeCalc (Name "T") 0 "P" (value (parameters He_reservoir_pressure)) "SV" 0 1 in
  let OneKPotFlow :=
    OneKPotEvaporation x0 (value (parameters He3_inlet_pressure))
      (value (parameters OneK_pot_inlet_temperature))
      (value (parameters Isopure_He_flow)) (value (parameters Isopure_He_pressure))
      reservoirTemperature
      (value (parameters He_reservoir_pressure))
      (value (parameters OneK_pot_inlet_temperature)) x1 in
  let T_1Kpot := OneKPotTemperature OneKPotFlow (value (parameters He_pumping_speed))
                   (value (parameters Pump_inlet_temperature))
                   (value (parameters He_pressure_drop)) in
  do T_HEX1 <- HEX1Temperature T_He3 (value (parameters HEX1_length))
                 (value (parameters Channel_diameter))
                 (value (parameters HEX1_fin_height))
                 (value (parameters HEX1_fin_pitch)) heatLoad;
  let T_He4 := He4Temperature T_HEX1 (value (parameters HEX1_length))
                 (value (parameters Channel_diameter)) heatLoad in
  ret (flow - x0, T_1Kpot - x1, T_He4 - x2).

(* solve equation set for UCN source and return them with some other
   calculated properties *)
Definition calcUCNSource (parameters : ParameterSet) : Printing (option (gmap string R)) :=
  do sol <- root (fun x => equationSet x parameters) (0.002, 1.8, 1);
  if negb (OptimizeResult.success sol) then
    run print Solution_did_not_converge; ret None
  else
  let '(x0, x1, x2) := OptimizeResult.x sol in
  let result : gmap string R := ∅ in
  let result := <["3He flow" := x0]> result in
  let result := <["1K pot temperature" := x1]> result in
  let result := <["T_4He" := x2]> result in
  let result := <["He reservoir temperature" :=
    HeCalc (Name "T") 0 "P" (value (parameters He_reservoir_pressure)) "SV" 0 1]> result in
  let result := <["1K pot flow" :=
    OneKPotEvaporation (result !!! "3He flow") (value (parameters He3_inlet_pressure))
      (value (parameters OneK_pot_inlet_temperature))
      (value (parameters Isopure_He_flow)) (value (parameters Isopure_He_pressure))
      (result !!! "He reservoir temperature")
      (value (parameters He_reservoir_pressure))
      (value (parameters OneK_pot_inlet_temperature))
      (result !!! "1K pot temperature")]> result in
  let result := <["He reservoir flow" :=
    HeReservoirEvaporation (result !!! "3He flow") (value (parameters He3_inlet_pressure))
      (value (parameters He_reservoir_inlet_temperature))
      (value (parameters Isopure_He_flow)) (value (parameters Isopure_He_pressure))
      (value (parameters Isopure_He_inlet_temperature))
      (value (parameters He_reservoir_pressure))]> result in
  let result := <["He consumption" :=
    (result !!! "He reservoir flow" + result !!! "1K pot flow")
    / HeCalc (Name "D") 0 "P" 101300 "SL" 0 1 * 1000 * 3600]> result in
  let result := <["20K shield flow" :=
    fst (shieldFlow (value (parameters Isopure_He_flow))
           (value (parameters Isopure_He_pressure))
           (value (parameters He_reservoir_pressure)))]> result in
  let result := <["100K shield flow" :=
    snd (shieldFlow (value (parameters Isopure_He_flow))
           (value (parameters Isopure_He_pressure))
           (value (parameters He_reservoir_pressure)))]> result in
  let result := <["Shield consumption" :=
    pymax (result !!! "20K shield flow") (result !!! "100K shield flow")
    / HeCalc (Name "D") 0 "P" 101300 "SL" 0 1 * 1000 * 3600]> result in
  let result := <["T_3He" :=
    He3Temperature (result !!! "3He flow") (value (parameters He3_pumping_speed))
      (value (parameters Pump_inlet_temperature))
      (value (parameters He3_pressure_drop))]> result in
  let heatLoad := value (parameters Beam_heating) + value (parameters Static_heat)
                  + HeCoolingLoad (value (parameters Isopure_He_flow))
                      (value (parameters Isopure_He_pressure))
                      (result !!! "1K pot temperature") (result !!! "T_4He") in
  do T_Cu <- HEX1Temperature (result !!! "T_3He") (value (parameters HEX1_length))
               (value (parameters Channel_diameter))
               (value (parameters HEX1_fin_height))
               (value (parameters HEX1_fin_pitch)) heatLoad;
  let result := <["T_Cu" := T_Cu]> result in
  if Rlt_dec (result !!! "T_4He") (HeConst 3) then
    run print (T_4He_outside_HEPAK_range (result !!! "T_4He"));
    let result := <["HeII vapor pressure" := 0]> result in
    let result := <["HeII pressure head" := 0]> result in
    let result := <["T_HeII" := 0]> result in
    ret (Some result)
  else
  let result := <["HeII vapor pressure" :=
    HeCalc (Name "P") 0 "T" (result !!! "T_4He") "SL" 0 1]> result in
  let result := <["HeII pressure head" :=
    HeCalc (Name "D") 0 "T" (result !!! "T_4He") "SL" 0 1 * 9.81
    * value (parameters HeII_overfill)]> result in
  do T_HeII <- HeIItemperature (value (parameters Channel_length)) (result !!! "T_4He")
                 (result !!! "HeII vapor pressure" + result !!! "HeII pressure head")
                 (value (parameters Beam_heating))
                 (value (parameters Channel_diameter));
  let result := <["T_HeII" := T_HeII]> result in
  ret (Some result).

(** The call of the root finder in [calcUCNSource], and whether it reports
    success ([sol.success]), named for the statements below. *)
Definition solution (parameters : ParameterSet) : Printing OptimizeResult.t :=
  root (fun x => equationSet x parameters) (0.002, 1.8, 1).

Definition converged (parameters : ParameterSet) : bool :=
  OptimizeResult.success (fst (solution parameters)).

End Solver.

(** The keys of a Result Record. *)
Definition resultKeys : list string :=
  [ "3He flow"; "1K pot temperature"; "T_4He"; "He reservoir temperature";
    "1K pot flow"; "He reservoir flow"; "He consumption"; "20K shield flow";
    "100K shield flow"; "Shield consumption"; "T_3He"; "T_Cu";
    "HeII vapor pressure"; "HeII pressure head"; "T_HeII" ].

(** ** Parameter sweep *)

(** The lists the sweep loop fills and the plots show. *)
Module Traces.
Record t := {
  x : list R; y : list R; y2 : list R; y3 : list R; y4 : list R;
  y5 : list R; y6 : list R; y7 : list R; y8 : list R; y9 : list R
}.
Definition empty : t :=
  {| x := []; y := []; y2 := []; y3 := []; y4 := []; y5 := []; y6 := [];
     y7 := []; y8 := []; y9 := [] |}.
End Traces.

(** A [for] loop whose body prints: the state is threaded through the
    iterations in order. *)
Fixpoint forEach {A S : Type} (l : list A) (body : S -> A -> Printing S) (s : S) : Printing S :=
  match l with
  | [] => ret s
  | a :: l => do s' <- body s a; forEach l body s'
  end.

(** Truth value of [res] in [if res:]: [None] and the empty dictionary are
    false. *)
Definition truthy (res : option (gmap string R)) : bool :=
  match res with
  | None => false
  | Some r => negb (bool_decide (size r = 0%nat))
  end.

(** The value tried at step [j] of a sweep over the range of [entry]. *)
Definition sweepValue (entry : ParameterEntry) (j : nat) : R :=
  fst (range entry) + INR j / 10 * (snd (range entry) - fst (range entry)).

(** The parameter set at step [j] of the sweep over [p]: the clone of
    [parameters] with the value of [p] overridden. *)
Definition sweepSet (parameters : ParameterSet) (p : ParamName) (j : nat) : ParameterSet :=
  setValue parameters p (sweepValue (parameters p) j).

(** The parameter set a step of the sweep over [p] can start from: the clone
    as made, or the clone with the value of [p] overridden. *)
Definition sweeping (parameters : ParameterSet) (p : ParamName) (params : ParameterSet) : Prop :=
  params = parameters \/ exists v : R, params = setValue parameters p v.

Section Sweep.
Context `{HP : hepak} `{H3 : he3pak} `{BC : BoilingCurve} `{SP : scipy}.

(** Body of [for j in range(11)]. *)
Definition sweepPoint (p : ParamName) (st : ParameterSet * Traces.t) (j : nat)
    : Printing (ParameterSet * Traces.t) :=
  let '(params, tr) := st in
  let value_ := sweepValue (params p) j in
  run print (Sweep_value value_ (unit (params p)));
  let params := setValue params p value_ in
  do res <- calcUCNSource params;
  if truthy res then
    let res := default ∅ res in
    ret (params,
         {| Traces.x := Traces.x tr ++ [value (params p)];
            Traces.y := Traces.y tr ++ [res !!! "He reservoir flow" * 1000];
            Traces.y2 := Traces.y2 tr ++ [res !!! "T_HeII"];
            Traces.y3 := Traces.y3 tr ++ [res !!! "T_3He"];
            Traces.y4 := Traces.y4 tr ++ [res !!! "T_4He"];
            Traces.y5 := Traces.y5 tr ++ [res !!! "3He flow" * 1000];
            Traces.y6 := Traces.y6 tr ++ [res !!! "1K pot flow" * 1000];
            Traces.y7 := Traces.y7 tr
              ++ [pymax (res !!! "20K shield flow") (res !!! "100K shield flow") * 1000];
            Traces.y8 := Traces.y8 tr ++ [res !!! "1K pot temperature"];
            Traces.y9 := Traces.y9 tr ++ [res !!! "T_Cu"] |})
  else ret (params, tr).

(** One pass of the outer loop: clone the parameter set, sweep [p] over
    its range in eleven steps, hand the lists to the plots. *)
Definition sweepParameter (parameters : ParameterSet) (p : ParamName) : Printing Traces.t :=
  let params := parameters in
  run print (Sweep_parameter (key p));
  do st <- forEach (seq 0 11) (sweepPoint p) (params, Traces.empty);
  ret (snd st).

(** [for i, p in enumerate(parameters)] *)
Definition sweep (parameters : ParameterSet) : Printing (list (ParamName * Traces.t)) :=
  forEach keys
    (fun panels p => do tr <- sweepParameter parameters p; ret (panels ++ [(p, tr)]))
    [].

(** What [calcUCNSource] returns at step [j] of the sweep over [p]. *)
Definition pointResult (parameters : ParameterSet) (p : ParamName) (j : nat) : gmap string R :=
  default ∅ (fst (calcUCNSource (sweepSet parameters p j))).

(** The lists [tr] after the ten [append]s of step [j]. *)
Definition plotPoint (parameters : ParameterSet) (p : ParamName) (tr : Traces.t) (j : nat)
    : Traces.t :=
  let res := pointResult parameters p j in
  {| Traces.x := Traces.x tr ++ [sweepValue (parameters p) j];
     Traces.y := Traces.y tr ++ [res !!! "He reservoir flow" * 1000];
     Traces.y2 := Traces.y2 tr ++ [res !!! "T_HeII"];
     Traces.y3 := Traces.y3 tr ++ [res !!! "T_3He"];
     Traces.y4 := Traces.y4 tr ++ [res !!! "T_4He"];
     Traces.y5 := Traces.y5 tr ++ [res !!! "3He flow" * 1000];
     Traces.y6 := Traces.y6 tr ++ [res !!! "1K pot flow" * 1000];
     Traces.y7 := Traces.y7 tr
       ++ [pymax (res !!! "20K shield flow") (res !!! "100K shield flow") * 1000];
     Traces.y8 := Traces.y8 tr ++ [res !!! "1K pot temperature"];
     Traces.y9 := Traces.y9 tr ++ [res !!! "T_Cu"] |}.

(** The steps of the sweep over [p] at which the root finder converges. *)
Definition convergedPoints (parameters : ParameterSet) (p : ParamName) : list nat :=
  List.filter (fun j => converged (sweepSet parameters p j)) (seq 0 11).

End Sweep.

(** ** The sweep grid over binary64

    Line 276 of the source under IEEE 754 double precision, which is what a
    Python float is: [float(j)] is exact for [j < 11], every operation
    rounds to nearest. *)
Set Warnings "-inexact-float".

Module Binary64.

Definition sweepValue (lo hi : float) (j : nat) : float :=
  (lo + PrimFloat.of_uint63 (Uint63.of_Z (Z.of_nat j)) / 10 * (hi - lo))%float.

(** The ['range'] entries of the [parameters] literal, in its order. *)
Definition ranges : list (ParamName * (float * float)) :=
  [ (He3_pumping_speed, (300, 10000)); (He_pumping_speed, (500, 5000));
    (Pump_inlet_temperature, (100, 300)); (He3_inlet_pressure, (50000, 100000));
    (Beam_heating, (0, 10)); (Static_heat, (0.1, 2)); (He3_pressure_drop, (0, 1000));
    (He_pressure_drop, (0, 1000)); (Channel_diameter, (0.1, 0.2));
    (Channel_length, (1, 4)); (HEX1_length, (0.1, 0.6));
    (HEX1_fin_height, (0, 0.003)); (HEX1_fin_pitch, (0.0005, 0.005));
    (HeII_overfill, (0.01, 0.2)); (He_reservoir_pressure, (900e2, 1500e2));
    (OneK_pot_inlet_temperature, (2, 4)); (He_reservoir_inlet_temperature, (6, 12));
    (Isopure_He_flow, (0, 0)); (Isopure_He_inlet_temperature, (10, 40));
    (Isopure_He_pressure, (10e2, 500e2)) ]%float.

End Binary64.

(** ** Stand-ins for the collaborators

    Small implementations of the interfaces, on which the theorems below are
    run at concrete inputs. *)
Module Toy.

(** Every property is the second state value (enthalpy grows with
    temperature); the lambda point is at 2.1768 K. *)
Definition linear : hepak :=
  {| HeCalc := fun _ _ _ _ _ v2 _ => v2;
     HeConst := fun n => if decide (n = 3%Z) then 2.1768 else 2077 |}.

(** A boiling curve with no data: every query is outside the table. *)
Definition no_data : BoilingCurve := {| He3boilingData := fun _ _ => None |}.

(** A boiling curve that is 0.25 K everywhere. *)
Definition flat : BoilingCurve := {| He3boilingData := fun _ _ => Some 0.25 |}.

(** A root finder that gives up at once and one that accepts the start
    vector; an integrator that takes a single Euler step over the whole
    interval. *)
Definition euler (f : R -> R -> Printing R) (span : R * R) (y0 : R) : Printing (list R) :=
  do d <- f (fst span) y0;
  ret [y0; y0 + (snd span - fst span) * d].

Definition failing : scipy :=
  {| root := fun _ x0 => ret {| OptimizeResult.success := false; OptimizeResult.x := x0 |};
     solve_ivp := euler |}.

Definition accepting : scipy :=
  {| root := fun _ x0 => ret {| OptimizeResult.success := true; OptimizeResult.x := x0 |};
     solve_ivp := euler |}.

(** Helium-3 properties that are all 1. *)
Definition unit_he3 : he3pak :=
  {| He3Density := fun _ _ => 1; He3Prop := fun _ _ _ => 1;
     He3SaturatedVaporProp := fun _ _ => 1; He3SaturatedLiquidProp := fun _ _ => 1;
     He3SaturatedTemperature := fun _ => 1 |}.

End Toy.

(** ** Loading the boiling curves

    The part of [loadHe3boilingData] that reads the seven data files into
    the two lists handed to the interpolator.  An exception ends the load:
    the value is the exception, or the lists [TQdata] and [dTdata].  The
    interpolator built from the lists and the figure drawn from it are left
    out. *)

Inductive PyError := OSError | IndexError | ValueError | TypeError.

(** The host: [open] with [csv.reader], which gives the rows of a file as
    lists of fields or cannot open it, and Python's [float] on a field,
    which gives a number or raises [ValueError]. *)
Class Host := {
  csv_rows : string -> option (list (list string));
  pyfloat : string -> option R
}.

(** [zip([0.55, ...], ['0.55K.csv', ...])] *)
Definition boilingFiles : list (R * string) :=
  zip [0.55; 0.6; 0.7; 0.8; 1; 1.48; 2]
      ["0.55K.csv"; "0.6K.csv"; "0.7K.csv"; "0.8K.csv"; "1K.csv"; "1.48K.csv"; "2K.csv"].

Section Loading.
Context `{HO : Host}.

(** Body of [for line in csvreader]: the point appended to [TQdata] and the
    value appended to [dTdata].  [line[1]] is read first. *)
Definition boilingRow (T : R) (line : list string) : PyError + (R * R) * R :=
  match line !! 1%nat with
  | None => inl IndexError
  | Some field1 =>
      match pyfloat field1 with
      | None => inl ValueError
      | Some q =>
          match line !! 0%nat with
          | None => inl IndexError
          | Some field0 =>
              match pyfloat field0 with
              | None => inl ValueError
              | Some dT => inr ((T, q * 10000), dT)
              end
          end
      end
  end.

Fixpoint boilingRows (T : R) (rows : list (list string)) (data : list (R * R) * list R)
    : PyError + list (R * R) * list R :=
  match rows with
  | [] => inr data
  | line :: rows =>
      match boilingRow T line with
      | inl e => inl e
      | inr (TQ, dT) => boilingRows T rows (fst data ++ [TQ], snd data ++ [dT])
      end
  end.

Fixpoint boilingTables (files : list (R * string)) (data : list (R * R) * list R)
    : PyError + list (R * R) * list R :=
  match files with
  | [] => inr data
  | (T, filename) :: files =>
      match csv_rows ("HEXdata/He3boiling_" ++ filename) with
      | None => inl OSError
      | Some rows =>
          match boilingRows T rows data with
          | inl e => inl e
          | inr data => boilingTables files data
          end
      end
  end.

Definition loadHe3boilingData : PyError + list (R * R) * list R :=
  boilingTables boilingFiles ([], []).

(** A row the load accepts: two fields at least, the first two numeric. *)
Definition numericRow (line : list string) : Prop :=
  exists (field0 field1 : string) (dT q : R),
    line !! 0%nat = Some field0 /\ line !! 1%nat = Some field1
    /\ pyfloat field0 = Some dT /\ pyfloat field1 = Some q.

(** A file the load accepts: it opens, and all its rows are numeric. *)
Definition readable (file : R * string) : Prop :=
  exists rows : list (list string),
    csv_rows ("HEXdata/He3boiling_" ++ snd file) = Some rows /\ Forall numericRow rows.

End Loading.

(** ** The script

    What the module does when run: solve for the default table, print the
    summary, sweep.  A summary line is its label with the numbers it
    formats; subscripting the [None] of a failed solve raises [TypeError].
    Saving the figure is left out. *)

Inductive Output :=
| Said (m : Message)
| Summary (label : string) (numbers : list R).

Section Script.
Context `{HP : hepak} `{H3 : he3pak} `{BC : BoilingCurve} `{SP : scipy}.

Definition summary (result : gmap string R) : list Output :=
  [ Summary "3He flow" [result !!! "3He flow" * 1000];
    Summary "He reservoir evaporation" [result !!! "He reservoir flow" * 1000];
    Summary "1K pot" [result !!! "1K pot temperature"; result !!! "1K pot flow" * 1000];
    Summary "He consumption" [result !!! "He consumption"];
    Summary "Required shield flows"
      [result !!! "20K shield flow" * 1000; result !!! "100K shield flow" * 1000];
    Summary "He-II pressure" [result !!! "HeII vapor pressure"; result !!! "HeII pressure head"];
    Summary "T" [result !!! "T_3He"; result !!! "T_Cu"; result !!! "T_4He"; result !!! "T_HeII"] ].

Definition script (parameters : ParameterSet)
    : (PyError + list (ParamName * Traces.t)) * list Output :=
  let (result, said) := calcUCNSource parameters in
  match result with
  | None => (inl TypeError, map Said said)
  | Some result =>
      let (panels, swept) := sweep parameters in
      (inr panels, map Said said ++ summary result ++ map Said swept)
  end.

End Script.

(** Further stand-ins. *)
Module Bench.

(** A host with no file at all, and one whose every file has the rows
    [1.5,0.25] and a blank line, with a [float] that reads every field
    as 1. *)
Definition no_files : Host :=
  {| csv_rows := fun _ => None; pyfloat := fun _ => Some 1 |}.

Definition blank_line : Host :=
  {| csv_rows := fun _ => Some [["1.5"; "0.25"]; []]; pyfloat := fun _ => Some 1 |}.

Definition two_rows : Host :=
  {| csv_rows := fun _ => Some [["1.5"; "0.25"]; ["2.5"; "0.5"]];
     pyfloat := fun _ => Some 1 |}.

(** Helium-3 that arrives as saturated liquid: enthalpy 2 at the inlet and
    on the liquid line, 10 on the vapour line, latent heat 5. *)
Definition saturated : he3pak :=
  {| He3Density := fun _ _ => 1; He3Prop := fun _ _ _ => 2;
     He3SaturatedVaporProp := fun _ _ => 10;
     He3SaturatedLiquidProp := fun n _ => if decide (n = 6%Z) then 2 else 5;
     He3SaturatedTemperature := fun P => P |}.

(** Helium-4 whose every property is positive: one more than the sum of
    the two state values. *)
Definition dense : hepak :=
  {| HeCalc := fun _ _ _ v1 _ v2 _ => v1 + v2 + 1;
     HeConst := fun n => if decide (n = 3%Z) then 2.1768 else 2077 |}.

(** The default table with the beam off. *)
Definition beam_off : ParameterSet := setValue parameters Beam_heating 0.

(** A root finder that reports success at a vector whose third component,
    3 K, is above the stand-in lambda point. *)
Definition accepting_warm : scipy :=
  {| root := fun _ _ => ret {| OptimizeResult.success := true;
                               OptimizeResult.x := (0.002, 1.8, 3) |};
     solve_ivp := Toy.euler |}.

(** A boiling curve that returns a thousandth of the heat flux it is asked
    at. *)
Definition proportional : BoilingCurve :=
  {| He3boilingData := fun _ q => Some (q / 1000) |}.

End Bench.

(** * Properties *)

(** ** Python's [max] and [min] on reals *)

(** Case analysis on the innermost comparison of the goal. *)
Ltac no_dec t :=
  lazymatch t with
  | context [Rlt_dec _ _] => fail
  | context [Rle_dec _ _] => fail
  | _ => idtac
  end.

Ltac innermost_dec :=
  match goal with
  | |- context [Rlt_dec ?a ?b] => no_dec a; no_dec b; destruct (Rlt_dec a b)
  | |- context [Rle_dec ?a ?b] => no_dec a; no_dec b; destruct (Rle_dec a b)
  end.

Ltac by_cases := repeat innermost_dec; try lra.

Lemma pymax_Rmax (a b : R) : pymax a b = Rmax a b.
Proof. unfold pymax, Rmax. by_cases. Qed.

Lemma pymin_Rmin (a b : R) : pymin a b = Rmin a b.
Proof. unfold pymin, Rmin. by_cases. Qed.

Lemma pymax_r (a b : R) : a <= b -> pymax a b = b.
Proof. intros Hab. unfold pymax. by_cases. Qed.

(** The clamp of [OneKPotTemperature] written the other way round. *)
Lemma clamp_swap (f : R) : pymax 0 (pymin f 0.1) = Rmin (Rmax f 0) 0.1.
Proof. unfold pymax, pymin, Rmin, Rmax. by_cases. Qed.

Lemma clamp_range (f : R) : 0 <= Rmin (Rmax f 0) 0.1 <= 0.1.
Proof. unfold Rmin, Rmax. by_cases. Qed.

Lemma clamp_idempotent (f : R) :
  Rmin (Rmax (Rmin (Rmax f 0) 0.1) 0) 0.1 = Rmin (Rmax f 0) 0.1.
Proof. unfold Rmin, Rmax. by_cases. Qed.

(** ** Helium cooling load and flow *)

Section CoolingLaws.
Context `{HP : hepak} `{H3 : he3pak}.

(** With the outlet at or above the lambda point the clamp is idle. *)
Lemma HeCoolingLoad_unclamped (flow P Tin Tout : R) :
  HeConst 3 <= Tout ->
  HeCoolingLoad flow P Tin Tout
  = flow * (HeCalc (Name "H") 0 "P" P "T" Tin 1 - HeCalc (Name "H") 0 "P" P "T" Tout 1).
Proof.
  intros Hlambda. unfold HeCoolingLoad.
  now rewrite (pymax_r _ _ Hlambda).
Qed.

(** C1 (as amended).  [HeCoolingLoad] multiplies the flow by the enthalpy at
    the inlet minus the enthalpy at the outlet, [HeCoolingFlow] divides the
    load by the enthalpy at the outlet minus the enthalpy at the inlet.  So
    for an outlet at or above the lambda point and distinct enthalpies at the
    two temperatures, feeding the load back with the same argument order
    returns the flow with its sign reversed, and returns the flow itself once
    the two temperatures are exchanged. *)
Theorem HeCooling_roundtrip (flow P Tin Tout : R) :
  HeConst 3 <= Tout ->
  HeCalc (Name "H") 0 "P" P "T" Tin 1 <> HeCalc (Name "H") 0 "P" P "T" Tout 1 ->
  HeCoolingFlow (HeCoolingLoad flow P Tin Tout) P Tin Tout = - flow
  /\ HeCoolingFlow (HeCoolingLoad flow P Tin Tout) P Tout Tin = flow.
Proof.
  intros Hlambda Hdiff.
  rewrite (HeCoolingLoad_unclamped _ _ _ _ Hlambda).
  unfold HeCoolingFlow.
  set (hin := HeCalc (Name "H") 0 "P" P "T" Tin 1) in *.
  set (hout := HeCalc (Name "H") 0 "P" P "T" Tout 1) in *.
  split; field; lra.
Qed.

(** C2.  The value of [He3CoolingLoad] is the flow times the inlet enthalpy
    minus the outlet DENSITY.  The outlet enthalpy, which the function also
    computes, does not reach the result: against the enthalpy difference of
    the helium-4 relation the value is off by the flow times the outlet
    enthalpy minus the outlet density. *)
Theorem He3CoolingLoad_outlet_density (flow pressure inletTemperature outletTemperature : R) :
  let inletEnthalpy := He3Prop 6 (He3Density pressure inletTemperature) inletTemperature in
  let outletDensity := He3Density pressure outletTemperature in
  let outletEnthalpy := He3Prop 6 outletDensity outletTemperature in
  He3CoolingLoad flow pressure inletTemperature outletTemperature
  = flow * (inletEnthalpy - outletDensity)
  /\ He3CoolingLoad flow pressure inletTemperature outletTemperature
     = flow * (inletEnthalpy - outletEnthalpy) + flow * (outletEnthalpy - outletDensity).
Proof.
  intros inletEnthalpy outletDensity outletEnthalpy.
  unfold He3CoolingLoad. fold inletEnthalpy outletDensity.
  split; [reflexivity | ring].
Qed.

(** C7.  [OneKPotTemperature] at a gas flow is [OneKPotTemperature] at that
    flow clamped to [0, 0.1] kg/s: the flow that enters the ideal-gas relation
    is [min(max(HeFlow, 0), 0.1)], which lies between 0 and 0.1, whatever the
    sign or size of [HeFlow]. *)
Theorem OneKPotTemperature_clamps_flow
    (HeFlow pumpingSpeed pumpInletTemperature pumpingPressureDrop : R) :
  let clamped := Rmin (Rmax HeFlow 0) 0.1 in
  OneKPotTemperature HeFlow pumpingSpeed pumpInletTemperature pumpingPressureDrop
  = OneKPotTemperature clamped pumpingSpeed pumpInletTemperature pumpingPressureDrop
  /\ OneKPotTemperature HeFlow pumpingSpeed pumpInletTemperature pumpingPressureDrop
     = HeCalc (Name "T") 0 "P"
         (clamped * HeConst 4 * pumpInletTemperature / (pumpingSpeed / 3600)
          + pumpingPressureDrop) "SL" 0 1
  /\ 0 <= clamped <= 0.1.
Proof.
  intros clamped. unfold OneKPotTemperature.
  rewrite !clamp_swap. subst clamped.
  rewrite clamp_idempotent.
  repeat split; apply clamp_range.
Qed.

End CoolingLaws.

(** C1, at an input.  Helium at 1 bar cooled from 4 K to 3 K, both above the
    lambda point, with an enthalpy that grows linearly with temperature. *)
Lemma HeCooling_roundtrip_witness :
  HeCoolingFlow (HP := Toy.linear) (HeCoolingLoad (HP := Toy.linear) 1 100000 4 3) 100000 4 3 = - (1)
  /\ HeCoolingFlow (HP := Toy.linear) (HeCoolingLoad (HP := Toy.linear) 1 100000 4 3) 100000 3 4 = 1.
Proof.
  apply (HeCooling_roundtrip (HP := Toy.linear) 1 100000 4 3); simpl; lra.
Defined.

(** C1 as the specification has it fails there: a flow of 1 kg/s, a pressure
    of 1 bar, inlet 4 K and outlet 3 K are all positive, the outlet is above
    the lambda point, and the round trip yields -1 kg/s, two away from the
    flow it started from. *)
Lemma HeCooling_roundtrip_same_order_fails :
  0 < 1 /\ 0 < 100000 /\ 0 < 4 /\ @HeConst Toy.linear 3 < 3
  /\ HeCoolingFlow (HP := Toy.linear) (HeCoolingLoad (HP := Toy.linear) 1 100000 4 3) 100000 4 3
     <> 1
  /\ Rabs (HeCoolingFlow (HP := Toy.linear) (HeCoolingLoad (HP := Toy.linear) 1 100000 4 3)
            100000 4 3 - 1) = 2.
Proof.
  assert (Hrt : HeCoolingFlow (HP := Toy.linear)
                  (HeCoolingLoad (HP := Toy.linear) 1 100000 4 3) 100000 4 3 = -1).
  { unfold HeCoolingFlow, HeCoolingLoad, pymax; simpl. by_cases. }
  rewrite Hrt. simpl.
  repeat split; try lra.
  unfold Rabs. destruct (Rcase_abs (-1 - 1)); lra.
Qed.

(** ** Heat exchanger and He-II channel *)

Section ConductionLaws.
Context `{HP : hepak} `{BC : BoilingCurve}.

(** The early return of [HEX1Temperature]. *)
Lemma HEX1Temperature_early_return
    (T_He3 HEX1length HEX1diameter finHeight finPitch heatLoad : R) :
  heatLoad <= 0 ->
  HEX1Temperature T_He3 HEX1length HEX1diameter finHeight finPitch heatLoad = ret T_He3.
Proof.
  intros Hload. unfold HEX1Temperature.
  destruct (Rle_dec heatLoad 0) as [_ | Hpos]; [reflexivity | contradiction].
Qed.

(** C5.  With no heat to remove (a load of zero or less) [HEX1Temperature]
    returns the bath temperature it was given, and prints nothing, for every
    length, diameter, fin height and fin pitch. *)
Theorem HEX1Temperature_no_load
    (T_He3 HEX1length HEX1diameter finHeight finPitch heatLoad : R) :
  heatLoad <= 0 ->
  HEX1Temperature T_He3 HEX1length HEX1diameter finHeight finPitch heatLoad = (T_He3, []).
Proof. intros Hload. now rewrite HEX1Temperature_early_return. Qed.

(** C9.  For a positive load the boiling curve is asked for the temperature
    difference at the bath temperature and the heat flux, load over area.
    Outside the table (no value) the function prints the warning and returns
    the bath temperature; inside it returns the bath temperature plus the
    interpolated difference and prints nothing. *)
Theorem HEX1Temperature_interpolation
    (T_He3 HEX1length HEX1diameter finHeight finPitch heatLoad : R) :
  0 < heatLoad ->
  let q := heatLoad / HEX1area HEX1length HEX1diameter finHeight finPitch in
  (He3boilingData T_He3 q = None ->
   HEX1Temperature T_He3 HEX1length HEX1diameter finHeight finPitch heatLoad
   = (T_He3, [He3_outside_boiling_range]))
  /\ (forall dT : R, He3boilingData T_He3 q = Some dT ->
      HEX1Temperature T_He3 HEX1length HEX1diameter finHeight finPitch heatLoad
      = (T_He3 + dT, [])).
Proof.
  intros Hload q. unfold HEX1Temperature.
  destruct (Rle_dec heatLoad 0) as [Hneg | _]; [lra |].
  fold (HEX1area HEX1length HEX1diameter finHeight finPitch). fold q.
  split.
  - intros Hout. now rewrite Hout.
  - intros dT Hin. now rewrite Hin.
Qed.

End ConductionLaws.


Section ChannelLaws.
Context `{HP : hepak} `{SP : scipy}.

(** C6.  With a heat load of exactly zero [HeIItemperature] returns the
    boundary temperature it was given and prints nothing: the integrator is
    not called, so the value is the same for every integrator, channel
    length, diameter and pressure. *)
Theorem HeIItemperature_no_load (x T_low pressure channelDiameter : R) :
  HeIItemperature x T_low pressure 0 channelDiameter = (T_low, []).
Proof.
  unfold HeIItemperature.
  destruct (Req_dec_T 0 0) as [_ | Hne]; [reflexivity | now contradiction Hne].
Qed.



End ChannelLaws.





(** C5, at an input: the default exchanger with a load of -2 W and of 0 W,
    over a boiling curve that would add 0.25 K. *)
Lemma HEX1Temperature_no_load_witness :
  -2 <= 0
  /\ HEX1Temperature (BC := Toy.flat) 0.8 0.6 0.148 0.001 0.002 (-2) = (0.8, [])
  /\ HEX1Temperature (BC := Toy.flat) 0.8 0.1 0.2 0.003 0.005 0 = (0.8, []).
Proof.
  split; [lra |]. split.
  - apply (HEX1Temperature_no_load (BC := Toy.flat) 0.8 0.6 0.148 0.001 0.002 (-2)). lra.
  - apply (HEX1Temperature_no_load (BC := Toy.flat) 0.8 0.1 0.2 0.003 0.005 0). lra.
Defined.

(** C9, at an input: a load of 9.1 W on the default exchanger, over a table
    with no data and over one that is 0.25 K everywhere. *)
Lemma HEX1Temperature_interpolation_witness :
  0 < 9.1
  /\ HEX1Temperature (BC := Toy.no_data) 0.8 0.6 0.148 0.001 0.002 9.1
     = (0.8, [He3_outside_boiling_range])
  /\ HEX1Temperature (BC := Toy.flat) 0.8 0.6 0.148 0.001 0.002 9.1 = (0.8 + 0.25, []).
Proof.
  split; [lra |]. split.
  - apply (HEX1Temperature_interpolation (BC := Toy.no_data) 0.8 0.6 0.148 0.001 0.002 9.1);
      [lra | reflexivity].
  - apply (HEX1Temperature_interpolation (BC := Toy.flat) 0.8 0.6 0.148 0.001 0.002 9.1);
      [lra | reflexivity].
Defined.



(** ** Solver *)

Lemma bind_pair {A B} (a : A) (l : list Message) (k : A -> Printing B) :
  bind (a, l) k = let (b, l2) := k a in (b, l ++ l2).
Proof. reflexivity. Qed.

(** Turns the outermost [let] of the goal into a local definition, so that
    the dictionary under construction is shared and not copied. *)
Ltac name_let :=
  match goal with
  | |- context C [let x := ?a in @?f x] =>
      let v := fresh "result" in
      set (v := a);
      let g := context C [f v] in
      change g; cbv beta
  end.

(** Looks a key up in a dictionary built by a chain of assignments. *)
Ltac chain_lookup :=
  repeat match goal with
  | |- context [?m !! _] => is_var m; unfold m
  | |- context [?m !!! _] => is_var m; unfold m
  | |- _ => rewrite lookup_insert_eq
  | |- _ => rewrite lookup_total_insert_eq
  | |- _ => rewrite lookup_insert_ne by discriminate
  | |- _ => rewrite lookup_total_insert_ne by discriminate
  end.

(** Finds the assignment that put a key into such a dictionary. *)
Ltac key_present :=
  repeat (match goal with |- is_Some (?m !! _) => is_var m; unfold m end;
          apply lookup_insert_is_Some'; first [left; reflexivity | right]).

Ltac all_keys_present := repeat (constructor; [key_present |]); constructor.

Section SolverLaws.
Context `{HP : hepak} `{H3 : he3pak} `{BC : BoilingCurve} `{SP : scipy}.

(** Without convergence: the message, and no record. *)
Lemma calcUCNSource_not_converged (params : ParameterSet) :
  converged params = false ->
  calcUCNSource params = (None, snd (solution params) ++ [Solution_did_not_converge]).
Proof.
  unfold converged, solution. intros Hs.
  cbv delta [calcUCNSource]. cbv beta.
  destruct (root _ _) as [sol l0].
  cbn [fst snd] in Hs. cbv beta iota delta [fst snd].
  rewrite bind_pair. cbv beta. rewrite Hs. reflexivity.
Qed.

(** With convergence: a record with every key, whose He-II entries are zero
    when the interface temperature is below the lambda point, in which case
    the last thing printed is the diagnostic. *)
Lemma calcUCNSource_converged (params : ParameterSet) :
  converged params = true ->
  let T_4He := snd (OptimizeResult.x (fst (solution params))) in
  exists (r : gmap string R) (l : list Message),
    calcUCNSource params = (Some r, snd (solution params) ++ l)
    /\ Forall (fun k => is_Some (r !! k)) resultKeys
    /\ r !! "T_4He" = Some T_4He
    /\ (T_4He < HeConst 3 ->
        r !! "HeII vapor pressure" = Some 0
        /\ r !! "HeII pressure head" = Some 0
        /\ r !! "T_HeII" = Some 0
        /\ exists l', l = l' ++ [T_4He_outside_HEPAK_range T_4He]).
Proof.
  intros Hs T_4He. subst T_4He.
  unfold converged, solution in *.
  cbv delta [calcUCNSource]. cbv beta.
  destruct (root _ _) as [sol l0].
  cbn [fst snd] in Hs. cbv beta iota delta [fst snd].
  rewrite bind_pair. cbv beta. rewrite Hs. cbv beta iota delta [negb].
  destruct (OptimizeResult.x sol) as [[x0 x1] x2]. cbv beta iota.
  repeat name_let.
  destruct (HEX1Temperature _ _ _ _ _ _) as [T_Cu l1].
  rewrite bind_pair. cbv beta.
  repeat name_let.
  destruct (Rlt_dec _ _) as [Hlt | Hge].
  - repeat name_let. unfold print, ret.
    rewrite bind_pair. cbv beta iota.
    eexists; eexists.
    split; [reflexivity |].
    split; [all_keys_present |].
    split; [chain_lookup; reflexivity |].
    intros _.
    repeat split; try (chain_lookup; reflexivity).
    exists l1. chain_lookup. now rewrite app_nil_r.
  - repeat name_let.
    destruct (HeIItemperature _ _ _ _ _) as [T_HeII l2].
    rewrite bind_pair. cbv beta. repeat name_let. unfold ret. cbv beta iota.
    eexists; eexists.
    split; [reflexivity |].
    split; [all_keys_present |].
    split; [chain_lookup; reflexivity |].
    intros Hlt. exfalso. apply Hge.
    chain_lookup. exact Hlt.
Qed.

(** A record is returned exactly when the root finder converged, and a
    returned record is never empty: [if res:] tests convergence. *)
Lemma truthy_calcUCNSource (params : ParameterSet) :
  truthy (fst (calcUCNSource params)) = converged params.
Proof.
  destruct (converged params) eqn:Hs.
  - destruct (calcUCNSource_converged params Hs) as (r & l & Hcalc & Hkeys & _).
    rewrite Hcalc. cbn [fst truthy].
    apply Forall_inv in Hkeys. destruct Hkeys as [v Hv].
    rewrite bool_decide_eq_false_2; [reflexivity |].
    intros Hsize. apply map_size_empty_iff in Hsize.
    rewrite Hsize, lookup_empty in Hv. discriminate.
  - now rewrite (calcUCNSource_not_converged params Hs).
Qed.

Lemma calcUCNSource_Some_converged (params : ParameterSet) (r : gmap string R) :
  fst (calcUCNSource params) = Some r -> converged params = true.
Proof.
  intros Hr. destruct (converged params) eqn:Hs; [reflexivity |].
  rewrite (calcUCNSource_not_converged params Hs) in Hr. discriminate.
Qed.

(** C4.  When the solve succeeds and the He-4 interface temperature it
    resolves is below the lambda point, [calcUCNSource] still returns the
    record: it holds that temperature under ['T_4He'] and exactly zero under
    ['HeII vapor pressure'], ['HeII pressure head'] and ['T_HeII'], and the
    last message printed is the out-of-range diagnostic. *)
Theorem calcUCNSource_below_lambda (parameters : ParameterSet) :
  converged parameters = true ->
  let T_4He := snd (OptimizeResult.x (fst (solution parameters))) in
  T_4He < HeConst 3 ->
  exists (result : gmap string R) (printed : list Message),
    calcUCNSource parameters
    = (Some result, printed ++ [T_4He_outside_HEPAK_range T_4He])
    /\ result !! "T_4He" = Some T_4He
    /\ result !! "HeII vapor pressure" = Some 0
    /\ result !! "HeII pressure head" = Some 0
    /\ result !! "T_HeII" = Some 0.
Proof.
  intros Hs T_4He Hlambda.
  destruct (calcUCNSource_converged parameters Hs)
    as (r & l & Hcalc & _ & HT & Hbelow).
  destruct (Hbelow Hlambda) as (Hvp & Hph & HTII & l' & Hl).
  exists r, (snd (solution parameters) ++ l').
  rewrite Hcalc, Hl, app_assoc. auto.
Qed.

End SolverLaws.

(** ** Parameter sweep *)

(** Overriding a value twice is overriding it once: the clone is one
    dictionary, written to at every step. *)
Lemma setValue_setValue (params : ParameterSet) (p : ParamName) (v w : R) :
  setValue (setValue params p v) p w = setValue params p w.
Proof.
  apply functional_extensionality. intros q. unfold setValue.
  destruct (decide (q = p)) as [-> | Hne]; [| reflexivity].
  now destruct (decide (p = p)).
Qed.

Lemma range_setValue (params : ParameterSet) (p : ParamName) (v : R) :
  range (setValue params p v p) = range (params p).
Proof. unfold setValue. now destruct (decide (p = p)). Qed.

Lemma unit_setValue (params : ParameterSet) (p : ParamName) (v : R) :
  unit (setValue params p v p) = unit (params p).
Proof. unfold setValue. now destruct (decide (p = p)). Qed.

Lemma value_setValue (params : ParameterSet) (p : ParamName) (v : R) :
  value (setValue params p v p) = v.
Proof. unfold setValue. now destruct (decide (p = p)). Qed.

(** The grid in exact arithmetic. *)
Lemma sweepValue_first (entry : ParameterEntry) : sweepValue entry 0 = fst (range entry).
Proof. unfold sweepValue. simpl. lra. Qed.

Lemma sweepValue_last (entry : ParameterEntry) : sweepValue entry 10 = snd (range entry).
Proof.
  unfold sweepValue. replace (INR 10) with 10 by (simpl; lra). lra.
Qed.

Lemma sweepValue_step (entry : ParameterEntry) (j : nat) :
  sweepValue entry (S j) - sweepValue entry j = (snd (range entry) - fst (range entry)) / 10.
Proof. unfold sweepValue. rewrite S_INR. lra. Qed.

Section SweepLaws.
Context `{HP : hepak} `{H3 : he3pak} `{BC : BoilingCurve} `{SP : scipy}.

Lemma sweeping_step (parameters : ParameterSet) (p : ParamName) (params : ParameterSet) (j : nat) :
  sweeping parameters p params ->
  setValue params p (sweepValue (params p) j) = sweepSet parameters p j
  /\ unit (params p) = unit (parameters p).
Proof.
  unfold sweepSet, sweepValue.
  intros [-> | [v ->]]; [split; reflexivity |].
  now rewrite setValue_setValue, range_setValue, unit_setValue.
Qed.

(** One step: the value of [p] is overridden, and the lists grow exactly
    when the root finder converges there. *)
Lemma sweepPoint_step (parameters : ParameterSet) (p : ParamName)
    (params : ParameterSet) (tr : Traces.t) (j : nat) :
  sweeping parameters p params ->
  fst (sweepPoint p (params, tr) j)
  = (sweepSet parameters p j,
     if converged (sweepSet parameters p j) then plotPoint parameters p tr j else tr).
Proof.
  intros Hsw. destruct (sweeping_step parameters p params j Hsw) as [Hset Hunit].
  unfold sweepPoint. unfold print. rewrite bind_pair. cbv beta zeta. rewrite Hset.
  rewrite <- (truthy_calcUCNSource (sweepSet parameters p j)).
  unfold plotPoint, pointResult.
  destruct (calcUCNSource (sweepSet parameters p j)) as [res l].
  rewrite bind_pair. cbn [fst].
  destruct (truthy res); cbn [ret fst]; [| reflexivity].
  unfold sweepSet at 2. now rewrite value_setValue.
Qed.

(** The loop over the steps [js]. *)
Lemma forEach_sweepPoint (parameters : ParameterSet) (p : ParamName) (js : list nat) :
  forall (params : ParameterSet) (tr : Traces.t),
    sweeping parameters p params ->
    snd (fst (forEach js (sweepPoint p) (params, tr)))
    = fold_left (fun tr j => if converged (sweepSet parameters p j)
                             then plotPoint parameters p tr j else tr) js tr.
Proof.
  induction js as [| j js IH]; intros params tr Hsw; [reflexivity |].
  cbn [forEach fold_left].
  pose proof (sweepPoint_step parameters p params tr j Hsw) as Hstep.
  destruct (sweepPoint p (params, tr) j) as [st l]. cbn [fst] in Hstep. subst st.
  rewrite bind_pair.
  rewrite <- (IH (sweepSet parameters p j)) by (right; eexists; reflexivity).
  now destruct (forEach js _ _).
Qed.

(** A list of the plot after the loop: one entry per converged step, in
    the order of the steps. *)
Lemma fold_plotPoint (parameters : ParameterSet) (p : ParamName)
    (list_of : Traces.t -> list R) (entry : nat -> R) :
  (forall tr j, list_of (plotPoint parameters p tr j) = list_of tr ++ [entry j]) ->
  forall (js : list nat) (tr : Traces.t),
    list_of (fold_left (fun tr j => if converged (sweepSet parameters p j)
                                    then plotPoint parameters p tr j else tr) js tr)
    = list_of tr
      ++ map entry (List.filter (fun j => converged (sweepSet parameters p j)) js).
Proof.
  intros Hentry. induction js as [| j js IH]; intros tr.
  - cbn. now rewrite app_nil_r.
  - cbn [fold_left List.filter]. rewrite IH.
    destruct (converged (sweepSet parameters p j)); [| reflexivity].
    rewrite Hentry. cbn [map]. now rewrite <- app_assoc.
Qed.

Lemma sweepParameter_fold (parameters : ParameterSet) (p : ParamName) :
  fst (sweepParameter parameters p)
  = fold_left (fun tr j => if converged (sweepSet parameters p j)
                           then plotPoint parameters p tr j else tr)
      (seq 0 11) Traces.empty.
Proof.
  unfold sweepParameter, print. rewrite bind_pair. cbv beta.
  rewrite <- (forEach_sweepPoint parameters p (seq 0 11) parameters Traces.empty)
    by (left; reflexivity).
  destruct (forEach (seq 0 11) _ _) as [st l]. reflexivity.
Qed.

(** A list of the plot of [p]. *)
Lemma sweepParameter_list (parameters : ParameterSet) (p : ParamName)
    (list_of : Traces.t -> list R) (entry : nat -> R) :
  list_of Traces.empty = [] ->
  (forall tr j, list_of (plotPoint parameters p tr j) = list_of tr ++ [entry j]) ->
  list_of (fst (sweepParameter parameters p)) = map entry (convergedPoints parameters p).
Proof.
  intros Hempty Hentry.
  rewrite sweepParameter_fold, (fold_plotPoint parameters p list_of entry Hentry), Hempty.
  reflexivity.
Qed.

(** The outer loop makes one plot per key, each by [sweepParameter] on the
    unchanged parameter table. *)
Lemma sweep_panels (parameters : ParameterSet) :
  fst (sweep parameters) = map (fun p => (p, fst (sweepParameter parameters p))) keys.
Proof.
  unfold sweep.
  enough (Hgen : forall (ps : list ParamName) (panels : list (ParamName * Traces.t)),
             fst (forEach ps
                    (fun panels p => do tr <- sweepParameter parameters p;
                                     ret (panels ++ [(p, tr)])) panels)
             = panels ++ map (fun p => (p, fst (sweepParameter parameters p))) ps)
    by apply (Hgen keys []).
  induction ps as [| p ps IH]; intros panels.
  - cbn. now rewrite app_nil_r.
  - cbn [forEach map].
    destruct (sweepParameter parameters p) as [tr l]. rewrite bind_pair. cbv beta.
    unfold ret at 1. rewrite bind_pair.
    specialize (IH (panels ++ [(p, tr)])).
    destruct (forEach ps _ _) as [out l']. cbn [fst] in *.
    now rewrite IH, <- app_assoc.
Qed.

End SweepLaws.

(** The binary64 table lists the keys of [parameters], in order. *)
Lemma binary64_ranges_keys : map fst Binary64.ranges = keys.
Proof. reflexivity. Qed.

(** The grid over binary64: on every range of the table the first sample is
    the lower end exactly; the last sample is the upper end exactly on
    nineteen ranges, and on the range of ['HEX1 fin pitch'] it is the float
    next above the upper end. *)
Lemma binary64_first_sample :
  Forall (fun '(_, (lo, hi)) => Binary64.sweepValue lo hi 0 = lo) Binary64.ranges.
Proof. unfold Binary64.ranges. repeat constructor. Qed.

Lemma binary64_last_sample :
  Forall (fun '(q, (lo, hi)) => q <> HEX1_fin_pitch -> Binary64.sweepValue lo hi 10 = hi)
    Binary64.ranges.
Proof.
  unfold Binary64.ranges.
  repeat (constructor; [first [reflexivity | intros Hq; now contradiction Hq] |]).
  constructor.
Qed.

Lemma binary64_last_sample_fin_pitch :
  Binary64.sweepValue 0.0005 0.005 10 = PrimFloat.next_up 0.005.
Proof. reflexivity. Qed.

Section SweepClaims.
Context `{HP : hepak} `{H3 : he3pak} `{BC : BoilingCurve} `{SP : scipy}.

(** C3.  When the root finder does not converge, [calcUCNSource] prints that
    the solution did not converge and returns no record; it returns a record
    only when the solve succeeded.  In the sweep over a parameter the
    x-values plotted are those of the steps, out of all eleven and in their
    order, at which the solve converged: a step that fails is passed over and
    the steps after it are still taken. *)
Theorem calcUCNSource_convergence_failure (parameters : ParameterSet) (p : ParamName) :
  (converged parameters = false ->
   calcUCNSource parameters
   = (None, snd (solution parameters) ++ [Solution_did_not_converge]))
  /\ (forall result : gmap string R,
        fst (calcUCNSource parameters) = Some result -> converged parameters = true)
  /\ Traces.x (fst (sweepParameter parameters p))
     = map (sweepValue (parameters p))
         (List.filter (fun j => converged (sweepSet parameters p j)) (seq 0 11)).
Proof.
  split; [apply calcUCNSource_not_converged |].
  split; [apply calcUCNSource_Some_converged |].
  now apply (sweepParameter_list parameters p Traces.x).
Qed.

(** C8 (as amended).  At step [j] of a sweep the value tried is
    [min + j/10 * (max - min)].  In exact arithmetic the eleven values start
    at [min], end at [max] and are [(max - min)/10] apart.  In binary64 the
    first value is [min] exactly on every range of the table, the last is
    [max] exactly on all ranges but that of ['HEX1 fin pitch'], where it is
    the float next above 0.005.  Each of the ten plotted lists has one entry
    per step at which the solve converged, taken from the result of that very
    step; a step that does not converge adds nothing to any of them. *)
Theorem sweep_sampling (parameters : ParameterSet) (p : ParamName) :
  let entry := parameters p in
  let plot := fst (sweepParameter parameters p) in
  let res := pointResult parameters p in
  let steps := convergedPoints parameters p in
  (forall j : nat,
     sweepValue entry j
     = fst (range entry) + INR j / 10 * (snd (range entry) - fst (range entry)))
  /\ sweepValue entry 0 = fst (range entry)
  /\ sweepValue entry 10 = snd (range entry)
  /\ (forall j : nat,
        sweepValue entry (S j) - sweepValue entry j
        = (snd (range entry) - fst (range entry)) / 10)
  /\ Forall (fun '(_, (lo, hi)) => Binary64.sweepValue lo hi 0 = lo) Binary64.ranges
  /\ Forall (fun '(q, (lo, hi)) =>
               q <> HEX1_fin_pitch -> Binary64.sweepValue lo hi 10 = hi) Binary64.ranges
  /\ Binary64.sweepValue 0.0005 0.005 10 = PrimFloat.next_up 0.005
  /\ Traces.x plot = map (sweepValue entry) steps
  /\ Traces.y plot = map (fun j => res j !!! "He reservoir flow" * 1000) steps
  /\ Traces.y2 plot = map (fun j => res j !!! "T_HeII") steps
  /\ Traces.y3 plot = map (fun j => res j !!! "T_3He") steps
  /\ Traces.y4 plot = map (fun j => res j !!! "T_4He") steps
  /\ Traces.y5 plot = map (fun j => res j !!! "3He flow" * 1000) steps
  /\ Traces.y6 plot = map (fun j => res j !!! "1K pot flow" * 1000) steps
  /\ Traces.y7 plot
     = map (fun j => pymax (res j !!! "20K shield flow") (res j !!! "100K shield flow")
                     * 1000) steps
  /\ Traces.y8 plot = map (fun j => res j !!! "1K pot temperature") steps
  /\ Traces.y9 plot = map (fun j => res j !!! "T_Cu") steps.
Proof.
  intros entry plot res steps.
  split; [reflexivity |].
  split; [apply sweepValue_first |].
  split; [apply sweepValue_last |].
  split; [apply sweepValue_step |].
  split; [exact binary64_first_sample |].
  split; [exact binary64_last_sample |].
  split; [exact binary64_last_sample_fin_pitch |].
  subst plot steps.
  repeat split;
    match goal with
    | |- ?list_of _ = map ?f _ => now apply (sweepParameter_list parameters p list_of f)
    end.
Qed.

End SweepClaims.

(** C3, at an input: the default table, with a root finder that never
    converges.  No record, and an empty plot for the beam heating. *)
Lemma calcUCNSource_convergence_failure_witness :
  converged (HP := Toy.linear) (H3 := Toy.unit_he3) (BC := Toy.flat) (SP := Toy.failing)
    parameters = false
  /\ calcUCNSource (HP := Toy.linear) (H3 := Toy.unit_he3) (BC := Toy.flat)
       (SP := Toy.failing) parameters
     = (None, [Solution_did_not_converge])
  /\ Traces.x (fst (sweepParameter (HP := Toy.linear) (H3 := Toy.unit_he3) (BC := Toy.flat)
                      (SP := Toy.failing) parameters Beam_heating))
     = [].
Proof.
  destruct (calcUCNSource_convergence_failure (HP := Toy.linear) (H3 := Toy.unit_he3)
              (BC := Toy.flat) (SP := Toy.failing) parameters Beam_heating)
    as (Hfail & _ & Hplot).
  split; [reflexivity |].
  split; [exact (Hfail eq_refl) |].
  rewrite Hplot. reflexivity.
Defined.

(** C4, at an input: the default table, with a root finder that accepts the
    start vector, whose He-4 interface temperature of 1 K is below the
    lambda point. *)
Lemma calcUCNSource_below_lambda_witness :
  converged (HP := Toy.linear) (H3 := Toy.unit_he3) (BC := Toy.flat) (SP := Toy.accepting)
    parameters = true
  /\ 1 < HeConst (hepak := Toy.linear) 3
  /\ exists (result : gmap string R) (printed : list Message),
       calcUCNSource (HP := Toy.linear) (H3 := Toy.unit_he3) (BC := Toy.flat)
         (SP := Toy.accepting) parameters
       = (Some result, printed ++ [T_4He_outside_HEPAK_range 1])
       /\ result !! "T_4He" = Some 1
       /\ result !! "HeII vapor pressure" = Some 0
       /\ result !! "HeII pressure head" = Some 0
       /\ result !! "T_HeII" = Some 0.
Proof.
  assert (Hlambda : 1 < HeConst (hepak := Toy.linear) 3) by (simpl; lra).
  split; [reflexivity |].
  split; [exact Hlambda |].
  exact (calcUCNSource_below_lambda (HP := Toy.linear) (H3 := Toy.unit_he3)
           (BC := Toy.flat) (SP := Toy.accepting) parameters eq_refl Hlambda).
Defined.

(** C8 as the specification has it fails on the range of ['HEX1 fin pitch']:
    in double precision the eleventh value of the sweep from 0.0005 to 0.005
    is not 0.005, so the values do not end at [max]. *)
Lemma sweep_last_sample_misses_max :
  In (HEX1_fin_pitch, (0.0005, 0.005)%float) Binary64.ranges
  /\ Binary64.sweepValue 0.0005 0.005 10 <> 0.005%float.
Proof.
  split.
  - unfold Binary64.ranges. do 12 right. left. reflexivity.
  - intros Heq.
    apply (f_equal (fun f => PrimFloat.eqb f 0.005)) in Heq.
    vm_compute in Heq. discriminate.
Qed.

(** * Further properties of the sub-models *)

Section SubModelLaws.
Context `{HP : hepak} `{H3 : he3pak}.

(** X1.  Below the lambda point the outlet temperature of [HeCoolingLoad]
    does not matter: the load is the load for an outlet at the lambda point
    itself. *)
Theorem HeCoolingLoad_clamps_outlet (flow pressure inletTemperature outletTemperature : R) :
  outletTemperature <= HeConst 3 ->
  HeCoolingLoad flow pressure inletTemperature outletTemperature
  = HeCoolingLoad flow pressure inletTemperature (HeConst 3).
Proof.
  intros Hbelow. unfold HeCoolingLoad, pymax.
  destruct (Rlt_dec (HeConst 3) outletTemperature) as [Habove | _]; [lra |].
  destruct (Rlt_dec (HeConst 3) (HeConst 3)) as [Hirr | _]; [lra | reflexivity].
Qed.

Lemma HeCoolingLoad_no_flow (pressure inletTemperature outletTemperature : R) :
  HeCoolingLoad 0 pressure inletTemperature outletTemperature = 0.
Proof. unfold HeCoolingLoad. ring. Qed.

(** X2.  Without isopure helium flowing over the shields, the required
    shield flows are the fixed static loads, 14.7 W on the 20 K stage and
    77.6 W on the 100 K stage, over the enthalpy the coolant gains from 10 K
    to 20 K and from 30 K to 100 K at the inlet pressure; the isopure
    pressure plays no part. *)
Theorem shieldFlow_static_loads (IPPressure inletPressure : R) :
  shieldFlow 0 IPPressure inletPressure
  = (14.7 / (HeCalc (Name "H") 0 "P" inletPressure "T" 20 1
             - HeCalc (Name "H") 0 "P" inletPressure "T" 10 1),
     77.6 / (HeCalc (Name "H") 0 "P" inletPressure "T" 100 1
             - HeCalc (Name "H") 0 "P" inletPressure "T" 30 1)).
Proof.
  unfold shieldFlow. rewrite !HeCoolingLoad_no_flow. unfold HeCoolingFlow.
  f_equal; f_equal; lra.
Qed.

(** X3.  Without isopure helium the evaporation from the reservoir and from
    the 1K pot is driven by the helium-3 load alone: neither depends on the
    isopure pressure or inlet temperature. *)
Theorem evaporation_without_isopure_flow
    (He3Flow He3Pressure He3InletTemperature IPPressure IPInletTemperature : R)
    (reservoirPressure HeInletPressure HeInletTemperature OneKPotTemperature : R) :
  HeReservoirEvaporation He3Flow He3Pressure He3InletTemperature 0 IPPressure
    IPInletTemperature reservoirPressure
  = He3CoolingLoad He3Flow He3Pressure He3InletTemperature
      (HeCalc (Name "T") 0 "P" reservoirPressure "SV" 0 1)
    / HeCalc (Index 7) 0 "P" reservoirPressure "SL" 0 1
  /\ OneKPotEvaporation He3Flow He3Pressure He3InletTemperature 0 IPPressure
       IPInletTemperature HeInletPressure HeInletTemperature OneKPotTemperature
     = He3CoolingLoad He3Flow He3Pressure He3InletTemperature OneKPotTemperature
       / HeCalc (Index 7) 0 "T" OneKPotTemperature "SL" 0 1
       / ((HeCalc (Name "H") 0 "T" HeInletTemperature "P" HeInletPressure 1
           - HeCalc (Name "H") 0 "T" OneKPotTemperature "SV" 0 1)
          / (HeCalc (Name "H") 0 "T" OneKPotTemperature "SL" 0 1
             - HeCalc (Name "H") 0 "T" OneKPotTemperature "SV" 0 1)).
Proof.
  unfold HeReservoirEvaporation, OneKPotEvaporation.
  rewrite !HeCoolingLoad_no_flow, !Rplus_0_r. split; reflexivity.
Qed.

(** X4.  Outside [0, 0.1] kg/s the 1K pot temperature is flat in the flow:
    at or below zero flow it is the saturation temperature at the pressure
    drop alone, whatever the (non-zero) pumping speed and the pump inlet
    temperature, and at or above 0.1 kg/s it is the temperature at
    0.1 kg/s. *)
Theorem OneKPotTemperature_saturates
    (HeFlow pumpingSpeed pumpInletTemperature pumpingPressureDrop : R) :
  pumpingSpeed <> 0 ->
  (HeFlow <= 0 ->
   OneKPotTemperature HeFlow pumpingSpeed pumpInletTemperature pumpingPressureDrop
   = HeCalc (Name "T") 0 "P" pumpingPressureDrop "SL" 0 1)
  /\ (0.1 <= HeFlow ->
      OneKPotTemperature HeFlow pumpingSpeed pumpInletTemperature pumpingPressureDrop
      = OneKPotTemperature 0.1 pumpingSpeed pumpInletTemperature pumpingPressureDrop).
Proof.
  intros Hspeed. unfold OneKPotTemperature. split; intros Hflow.
  - replace (pymax 0 (pymin HeFlow 0.1)) with 0
      by (unfold pymax, pymin; by_cases).
    f_equal. field. lra.
  - replace (pymax 0 (pymin HeFlow 0.1)) with (pymax 0 (pymin 0.1 0.1))
      by (unfold pymax, pymin; by_cases).
    reflexivity.
Qed.

(** X5.  With no flow [He3Temperature] is the saturation temperature at the
    pressure drop alone, whatever the (non-zero) pumping speed and the pump
    inlet temperature. *)
Theorem He3Temperature_no_flow (pumpingSpeed pumpInletTemperature pumpingPressureDrop : R) :
  pumpingSpeed <> 0 ->
  He3Temperature 0 pumpingSpeed pumpInletTemperature pumpingPressureDrop
  = He3SaturatedTemperature pumpingPressureDrop.
Proof.
  intros Hspeed. unfold He3Temperature. f_equal. field. lra.
Qed.

(** X6.  A helium-3 stream that arrives as saturated liquid does not flash:
    the flow through the valve is the heat load over the latent heat. *)
Theorem He3Flow_saturated_inlet (inletTemperature inletPressure temperature heatLoad : R) :
  He3Prop 6 (He3Density inletPressure inletTemperature) inletTemperature
  = He3SaturatedLiquidProp 6 temperature ->
  He3SaturatedLiquidProp 6 temperature <> He3SaturatedVaporProp 6 temperature ->
  He3Flow inletTemperature inletPressure temperature heatLoad
  = heatLoad / He3SaturatedLiquidProp 13 temperature.
Proof.
  intros Hinlet Hlatent. unfold He3Flow. rewrite Hinlet.
  set (hl := He3SaturatedLiquidProp 6 temperature) in *.
  set (hv := He3SaturatedVaporProp 6 temperature) in *.
  replace ((hl - hv) / (hl - hv)) with 1 by (field; lra).
  unfold Rdiv. rewrite Rinv_1. ring.
Qed.

End SubModelLaws.

(** X1, at an input: an outlet at 1 K, below the stand-in lambda point. *)
Lemma HeCoolingLoad_clamps_outlet_witness :
  1 <= HeConst (hepak := Toy.linear) 3
  /\ HeCoolingLoad (HP := Toy.linear) 2 100000 4 1
     = HeCoolingLoad (HP := Toy.linear) 2 100000 4 (HeConst (hepak := Toy.linear) 3).
Proof.
  assert (Hbelow : 1 <= HeConst (hepak := Toy.linear) 3) by (simpl; lra).
  split; [exact Hbelow |].
  exact (HeCoolingLoad_clamps_outlet (HP := Toy.linear) 2 100000 4 1 Hbelow).
Defined.

(** X4, at an input: the default pump with a flow of -0.01 and of 0.5 kg/s. *)
Lemma OneKPotTemperature_saturates_witness :
  2000 <> 0
  /\ OneKPotTemperature (HP := Toy.linear) (-0.01) 2000 290 200
     = HeCalc (hepak := Toy.linear) (Name "T") 0 "P" 200 "SL" 0 1
  /\ OneKPotTemperature (HP := Toy.linear) 0.5 2000 290 200
     = OneKPotTemperature (HP := Toy.linear) 0.1 2000 290 200.
Proof.
  assert (Hspeed : 2000 <> 0) by lra.
  split; [exact Hspeed |]. split.
  - destruct (OneKPotTemperature_saturates (HP := Toy.linear) (-0.01) 2000 290 200 Hspeed)
      as [Hlow _].
    apply Hlow. lra.
  - destruct (OneKPotTemperature_saturates (HP := Toy.linear) 0.5 2000 290 200 Hspeed)
      as [_ Hhigh].
    apply Hhigh. lra.
Defined.

(** X5, at an input: the default pump, with a saturation temperature that
    shows the pressure it is asked at. *)
Lemma He3Temperature_no_flow_witness :
  5000 <> 0
  /\ He3Temperature (H3 := Bench.saturated) 0 5000 290 200 = 200.
Proof.
  assert (Hspeed : 5000 <> 0) by lra.
  split; [exact Hspeed |].
  exact (He3Temperature_no_flow (H3 := Bench.saturated) 5000 290 200 Hspeed).
Defined.

(** X6, at an input: a load of 9.1 W, latent heat 5. *)
Lemma He3Flow_saturated_inlet_witness :
  He3Flow (H3 := Bench.saturated) 1.8 50000 0.8 9.1 = 9.1 / 5.
Proof.
  apply (He3Flow_saturated_inlet (H3 := Bench.saturated) 1.8 50000 0.8 9.1).
  - reflexivity.
  - simpl. lra.
Defined.

(** * Further properties of the heat exchanger and the channel *)

Section ExchangerLaws.
Context `{HP : hepak} `{BC : BoilingCurve}.

(** X7.  With fins of zero height the exchanger is a plain tube: for a
    positive load the boiling curve is asked at the load over
    [diameter * pi * length], whatever the (non-zero) fin pitch. *)
Theorem HEX1Temperature_plain_tube (T_He3 HEX1length HEX1diameter finPitch heatLoad : R) :
  finPitch <> 0 -> 0 < heatLoad ->
  HEX1Temperature T_He3 HEX1length HEX1diameter 0 finPitch heatLoad
  = match He3boilingData T_He3 (heatLoad / (HEX1diameter * PI * HEX1length)) with
    | None => (T_He3, [He3_outside_boiling_range])
    | Some dT => (T_He3 + dT, [])
    end.
Proof.
  intros Hpitch Hload. unfold HEX1Temperature.
  destruct (Rle_dec heatLoad 0) as [Hneg | _]; [lra |].
  match goal with
  | |- context [heatLoad / ?area] =>
      replace area with (HEX1diameter * PI * HEX1length) by (field; exact Hpitch)
  end.
  now destruct (He3boilingData T_He3 (heatLoad / (HEX1diameter * PI * HEX1length))).
Qed.

(** X8.  The Kapitza step never cools: on a positive geometry and for a
    positive copper temperature [He4Temperature] returns the copper
    temperature when there is no load, and a temperature that is not below
    it for a load that is not negative. *)
Theorem He4Temperature_not_below (T_Cu HEX1length HEX1diameter heatLoad : R) :
  0 < T_Cu -> 0 < HEX1length -> 0 < HEX1diameter ->
  He4Temperature T_Cu HEX1length HEX1diameter 0 = T_Cu
  /\ (0 <= heatLoad -> T_Cu <= He4Temperature T_Cu HEX1length HEX1diameter heatLoad).
Proof.
  intros HT HL HD. pose proof PI_RGT_0 as Hpi.
  assert (Hcube : 0 < T_Cu ^ 3) by (apply pow_lt; exact HT).
  assert (Harea : 0 < HEX1diameter * PI * HEX1length)
    by (apply Rmult_lt_0_compat; [apply Rmult_lt_0_compat |]; assumption).
  unfold He4Temperature. split.
  - field. repeat split; lra.
  - intros Hload.
    assert (0 <= heatLoad / (HEX1diameter * PI * HEX1length) / (900 * T_Cu ^ 3)).
    { apply Rmult_le_pos; [apply Rmult_le_pos; [exact Hload |] |];
        apply Rlt_le, Rinv_0_lt_compat; [exact Harea | lra]. }
    lra.
Qed.

(** X9.  The slope [dTdx] is floored, never negative.  Below the lambda
    point it is 0 and the out-of-range message is printed; at or above it
    with a conductivity that is not positive it is 0 and the conductivity
    message is printed; otherwise it is the cubed flux over the conductivity,
    nothing is printed, and for a load that is not negative through a
    positive cross-section it is not negative. *)
Theorem dTdx_floor (pressure heatLoad A x T : R) :
  0 <= heatLoad -> 0 < A ->
  let k := HeCalc (Index 38) 0 "P" pressure "T" T 1 in
  (T < HeConst 3 /\ dTdx pressure heatLoad A x T = (0, [T_4He_outside_HEPAK_range T]))
  \/ (HeConst 3 <= T /\ k <= 0
      /\ dTdx pressure heatLoad A x T = (0, [Conductivity_not_positive]))
  \/ (HeConst 3 <= T /\ 0 < k
      /\ dTdx pressure heatLoad A x T = ((heatLoad / A) ^ 3 / k, [])
      /\ 0 <= (heatLoad / A) ^ 3 / k).
Proof.
  intros Hload HA k. unfold dTdx. fold k.
  destruct (Rlt_dec T (HeConst 3)) as [Hbelow | Habove]; [left; split; [lra | reflexivity] |].
  right. destruct (Rlt_dec 0 k) as [Hk | Hk].
  - right. repeat split; try lra.
    apply Rmult_le_pos; [| now apply Rlt_le, Rinv_0_lt_compat].
    apply pow_le. apply Rmult_le_pos; [exact Hload |].
    now apply Rlt_le, Rinv_0_lt_compat.
  - left. repeat split; try lra.
Qed.

End ExchangerLaws.

(** X7, at an input: the default tube without fins under 9.1 W, over a
    curve that returns a thousandth of the flux it is asked at. *)
Lemma HEX1Temperature_plain_tube_witness :
  0.002 <> 0 /\ 0 < 9.1
  /\ HEX1Temperature (BC := Bench.proportional) 0.8 0.6 0.148 0 0.002 9.1
     = (0.8 + 9.1 / (0.148 * PI * 0.6) / 1000, []).
Proof.
  assert (Hpitch : 0.002 <> 0) by lra. assert (Hload : 0 < 9.1) by lra.
  split; [exact Hpitch |]. split; [exact Hload |].
  exact (HEX1Temperature_plain_tube (BC := Bench.proportional)
           0.8 0.6 0.148 0.002 9.1 Hpitch Hload).
Defined.

(** X8, at an input: copper at 0.8 K in the default exchanger, 9.1 W. *)
Lemma He4Temperature_not_below_witness :
  0 < 0.8 /\ 0 < 0.6 /\ 0 < 0.148 /\ 0 <= 9.1
  /\ He4Temperature 0.8 0.6 0.148 0 = 0.8
  /\ 0.8 <= He4Temperature 0.8 0.6 0.148 9.1.
Proof.
  assert (HT : 0 < 0.8) by lra. assert (HL : 0 < 0.6) by lra.
  assert (HD : 0 < 0.148) by lra. assert (HQ : 0 <= 9.1) by lra.
  repeat (split; [assumption |]).
  destruct (He4Temperature_not_below 0.8 0.6 0.148 9.1 HT HL HD) as [Hzero Hwarm].
  split; [| exact (Hwarm HQ)].
  exact (proj1 (He4Temperature_not_below 0.8 0.6 0.148 0 HT HL HD)).
Defined.

(** X9, at an input: 8.1 W through a unit cross-section at 1 K, below the
    stand-in lambda point, and at 3 K, above it. *)
Lemma dTdx_floor_witness :
  0 <= 8.1 /\ 0 < 1
  /\ dTdx (HP := Toy.linear) 1000 8.1 1 0 1 = (0, [T_4He_outside_HEPAK_range 1])
  /\ dTdx (HP := Toy.linear) 1000 8.1 1 0 3 = ((8.1 / 1) ^ 3 / 3, []).
Proof.
  assert (HQ : 0 <= 8.1) by lra. assert (HA : 0 < 1) by lra.
  split; [exact HQ |]. split; [exact HA |]. split.
  - destruct (dTdx_floor (HP := Toy.linear) 1000 8.1 1 0 1 HQ HA)
      as [[_ Hlow] | [(Hge & _) | (Hge & _)]]; [exact Hlow | |];
      simpl in Hge; lra.
  - destruct (dTdx_floor (HP := Toy.linear) 1000 8.1 1 0 3 HQ HA)
      as [[Hlt _] | [(_ & Hk & _) | (_ & _ & Hslope & _)]]; [| | exact Hslope];
      simpl in *; lra.
Defined.

(** * Further properties of the equation set and the solver *)

Section EquationLaws.
Context `{HP : hepak} `{H3 : he3pak} `{BC : BoilingCurve} `{SP : scipy}.

(** X10.  Without isopure helium the third unknown decouples: the guess of
    the He-4 interface temperature enters neither the heat load nor the
    first two residuals nor what is printed, and the third residual is one
    and the same temperature minus the guess. *)
Theorem equationSet_decouples (parameters : ParameterSet) (x0 x1 x2 y2 : R) :
  value (parameters Isopure_He_flow) = 0 ->
  exists (r0 r1 T_He4 : R) (printed : list Message),
    equationSet (x0, x1, x2) parameters = ((r0, r1, T_He4 - x2), printed)
    /\ equationSet (x0, x1, y2) parameters = ((r0, r1, T_He4 - y2), printed).
Proof.
  intros Hflow. unfold equationSet. rewrite Hflow, !HeCoolingLoad_no_flow.
  cbv zeta.
  destruct (HEX1Temperature _ _ _ _ _ _) as [T_HEX1 printed].
  rewrite !bind_pair. cbn [ret]. rewrite app_nil_r.
  eexists; eexists; eexists; eexists. split; reflexivity.
Qed.

End EquationLaws.

(** X10, at an input: the default table, whose isopure flow is zero, at the
    start vector and at the start vector with the third unknown at 2 K. *)
Lemma equationSet_decouples_witness :
  value (parameters Isopure_He_flow) = 0
  /\ exists (r0 r1 T_He4 : R) (printed : list Message),
       equationSet (HP := Toy.linear) (H3 := Toy.unit_he3) (BC := Toy.flat)
         (0.002, 1.8, 1) parameters = ((r0, r1, T_He4 - 1), printed)
       /\ equationSet (HP := Toy.linear) (H3 := Toy.unit_he3) (BC := Toy.flat)
            (0.002, 1.8, 2) parameters = ((r0, r1, T_He4 - 2), printed).
Proof.
  split; [reflexivity |].
  exact (equationSet_decouples (HP := Toy.linear) (H3 := Toy.unit_he3) (BC := Toy.flat)
           parameters 0.002 1.8 1 2 eq_refl).
Defined.

(** Reads the keys off a dictionary built by a chain of assignments. *)
Ltac chain_dom :=
  repeat (match goal with |- context [dom ?m] => is_var m; unfold m end;
          rewrite dom_insert_L);
  try match goal with |- context [dom ?m] => is_var m; unfold m end;
  rewrite dom_empty_L.

Section RecordLaws.
Context `{HP : hepak} `{H3 : he3pak} `{BC : BoilingCurve} `{SP : scipy}.

(** The entries of the record of a converged solve, in terms of the root. *)
Lemma calcUCNSource_entries (params : ParameterSet) (x0 x1 x2 : R) :
  converged params = true ->
  OptimizeResult.x (fst (solution params)) = (x0, x1, x2) ->
  exists (r : gmap string R) (l : list Message),
    calcUCNSource params = (Some r, snd (solution params) ++ l)
    /\ dom r = (list_to_set resultKeys : gset string)
    /\ r !! "3He flow" = Some x0
    /\ r !! "1K pot temperature" = Some x1
    /\ r !! "T_4He" = Some x2
    /\ r !! "Shield consumption"
       = Some (pymax (r !!! "20K shield flow") (r !!! "100K shield flow")
               / HeCalc (Name "D") 0 "P" 101300 "SL" 0 1 * 1000 * 3600)
    /\ (HeConst 3 <= x2 ->
        r !! "T_HeII"
        = Some (fst (HeIItemperature (value (params Channel_length)) x2
                       (HeCalc (Name "P") 0 "T" x2 "SL" 0 1
                        + HeCalc (Name "D") 0 "T" x2 "SL" 0 1 * 9.81
                          * value (params HeII_overfill))
                       (value (params Beam_heating))
                       (value (params Channel_diameter))))).
Proof.
  intros Hs Hx. unfold converged, solution in *.
  cbv delta [calcUCNSource]. cbv beta.
  destruct (root _ _) as [sol l0].
  cbn [fst snd] in Hs, Hx. cbv beta iota delta [fst snd].
  rewrite bind_pair. cbv beta. rewrite Hs, Hx. cbv beta iota delta [negb].
  repeat name_let.
  destruct (HEX1Temperature _ _ _ _ _ _) as [T_Cu l1].
  rewrite bind_pair. cbv beta.
  repeat name_let.
  destruct (Rlt_dec _ _) as [Hlt | Hge].
  - repeat name_let. unfold print, ret.
    rewrite bind_pair. cbv beta iota.
    eexists; eexists.
    split; [reflexivity |].
    split; [chain_dom; unfold resultKeys; set_solver |].
    do 3 (split; [chain_lookup; reflexivity |]).
    split; [chain_lookup; reflexivity |].
    intros Hlambda. exfalso. revert Hlt. chain_lookup. lra.
  - repeat name_let.
    destruct (HeIItemperature _ _ _ _ _) as [T_HeII l2] eqn:HII.
    rewrite bind_pair. cbv beta. repeat name_let. unfold ret. cbv beta iota.
    eexists; eexists.
    split; [reflexivity |].
    split; [chain_dom; unfold resultKeys; set_solver |].
    do 3 (split; [chain_lookup; reflexivity |]).
    split; [chain_lookup; reflexivity |].
    intros _. revert HII. chain_lookup. intros HII.
    first [reflexivity | now rewrite HII].
Qed.

End RecordLaws.

Lemma HeIItemperature_without_load `{HP : hepak} `{SP : scipy}
    (x T_low pressure channelDiameter : R) :
  HeIItemperature x T_low pressure 0 channelDiameter = ret T_low.
Proof.
  unfold HeIItemperature.
  destruct (Req_dec_T 0 0) as [_ | Hne]; [reflexivity | now contradiction Hne].
Qed.

Lemma pymax_bounds (a b : R) : a <= pymax a b /\ b <= pymax a b.
Proof. unfold pymax. destruct (Rlt_dec a b); lra. Qed.

Section RecordClaims.
Context `{HP : hepak} `{H3 : he3pak} `{BC : BoilingCurve} `{SP : scipy}.

(** X11.  [calcUCNSource] returns a record exactly when the root finder
    reports success.  A record has the fifteen keys of a Result Record and
    no other, and holds the three components of the root, as found, under
    ['3He flow'], ['1K pot temperature'] and ['T_4He']. *)
Theorem calcUCNSource_record (parameters : ParameterSet) :
  match fst (calcUCNSource parameters) with
  | None => converged parameters = false
  | Some result =>
      converged parameters = true
      /\ dom result = (list_to_set resultKeys : gset string)
      /\ (result !! "3He flow", result !! "1K pot temperature", result !! "T_4He")
         = (let '(x0, x1, x2) := OptimizeResult.x (fst (solution parameters)) in
            (Some x0, Some x1, Some x2))
  end.
Proof.
  destruct (converged parameters) eqn:Hs.
  - destruct (OptimizeResult.x (fst (solution parameters))) as [[x0 x1] x2] eqn:Hx.
    destruct (calcUCNSource_entries parameters x0 x1 x2 Hs Hx)
      as (r & l & Hcalc & Hdom & H0 & H1 & H2 & _).
    rewrite Hcalc. cbn [fst]. rewrite H0, H1, H2. auto.
  - now rewrite (calcUCNSource_not_converged parameters Hs).
Qed.

(** X12.  The He-II channel is integrated with the beam heating alone.  For
    a converged solve with the interface temperature at or above the lambda
    point, ['T_HeII'] is [HeIItemperature] over the channel length from the
    interface temperature, at the vapour pressure plus the pressure head,
    for a load of ['Beam heating'] and nothing else; so with the beam off it
    is the interface temperature itself, whatever the static heat. *)
Theorem calcUCNSource_channel_load (parameters : ParameterSet) :
  converged parameters = true ->
  let T_4He := snd (OptimizeResult.x (fst (solution parameters))) in
  HeConst 3 <= T_4He ->
  exists result : gmap string R,
    fst (calcUCNSource parameters) = Some result
    /\ result !! "T_4He" = Some T_4He
    /\ result !! "T_HeII"
       = Some (fst (HeIItemperature (value (parameters Channel_length)) T_4He
                      (HeCalc (Name "P") 0 "T" T_4He "SL" 0 1
                       + HeCalc (Name "D") 0 "T" T_4He "SL" 0 1 * 9.81
                         * value (parameters HeII_overfill))
                      (value (parameters Beam_heating))
                      (value (parameters Channel_diameter))))
    /\ (value (parameters Beam_heating) = 0 -> result !! "T_HeII" = Some T_4He).
Proof.
  intros Hs T_4He Hlambda. subst T_4He.
  destruct (OptimizeResult.x (fst (solution parameters))) as [[x0 x1] x2] eqn:Hx.
  cbn [snd] in *.
  destruct (calcUCNSource_entries parameters x0 x1 x2 Hs Hx)
    as (r & l & Hcalc & _ & _ & _ & H2 & _ & HII).
  exists r. rewrite Hcalc. cbn [fst].
  split; [reflexivity |]. split; [exact H2 |].
  split; [exact (HII Hlambda) |].
  intros Hbeam.
  rewrite (HII Hlambda), Hbeam, HeIItemperature_without_load. reflexivity.
Qed.

(** X13.  The shield consumption of a record is the larger of its two
    shield flows as a liquid volume rate: the larger flow over the liquid
    density at 1013e2 Pa, times 1000 and 3600.  For a positive density it is
    therefore not below what either stage needs. *)
Theorem calcUCNSource_shield_consumption (parameters : ParameterSet) :
  converged parameters = true ->
  let rho := HeCalc (Name "D") 0 "P" 101300 "SL" 0 1 in
  exists result : gmap string R,
    fst (calcUCNSource parameters) = Some result
    /\ result !! "Shield consumption"
       = Some (pymax (result !!! "20K shield flow") (result !!! "100K shield flow")
               / rho * 1000 * 3600)
    /\ (0 < rho ->
        result !!! "20K shield flow" / rho * 1000 * 3600 <= result !!! "Shield consumption"
        /\ result !!! "100K shield flow" / rho * 1000 * 3600
           <= result !!! "Shield consumption").
Proof.
  intros Hs rho.
  destruct (OptimizeResult.x (fst (solution parameters))) as [[x0 x1] x2] eqn:Hx.
  destruct (calcUCNSource_entries parameters x0 x1 x2 Hs Hx)
    as (r & l & Hcalc & _ & _ & _ & _ & Hshield & _).
  exists r. rewrite Hcalc. cbn [fst]. split; [reflexivity |].
  split; [exact Hshield |].
  intros Hrho. rewrite (lookup_total_correct _ _ _ Hshield). fold rho.
  destruct (pymax_bounds (r !!! "20K shield flow") (r !!! "100K shield flow")) as [H20 H100].
  assert (Hinv : 0 < / rho) by now apply Rinv_0_lt_compat.
  unfold Rdiv. split; nra.
Qed.

End RecordClaims.

(** X12, at an input: the default table with the beam off, a root finder
    that accepts a start vector whose third component, 3 K, is above the
    stand-in lambda point. *)
Lemma calcUCNSource_channel_load_witness :
  value (Bench.beam_off Beam_heating) = 0
  /\ HeConst (hepak := Toy.linear) 3 <= 3
  /\ exists result : gmap string R,
       fst (calcUCNSource (HP := Toy.linear) (H3 := Toy.unit_he3) (BC := Toy.flat)
              (SP := Bench.accepting_warm) Bench.beam_off) = Some result
       /\ result !! "T_4He" = Some 3
       /\ result !! "T_HeII" = Some 3.
Proof.
  assert (Hlambda : HeConst (hepak := Toy.linear) 3 <= 3) by (simpl; lra).
  split; [reflexivity |]. split; [exact Hlambda |].
  destruct (calcUCNSource_channel_load (HP := Toy.linear) (H3 := Toy.unit_he3)
              (BC := Toy.flat) (SP := Bench.accepting_warm) Bench.beam_off eq_refl Hlambda)
    as (result & Hcalc & HT & _ & Hoff).
  exists result. split; [exact Hcalc |]. split; [exact HT |].
  exact (Hoff eq_refl).
Defined.

(** X13, at an input: the default table, with a stand-in library whose
    liquid density is positive. *)
Lemma calcUCNSource_shield_consumption_witness :
  0 < HeCalc (hepak := Bench.dense) (Name "D") 0 "P" 101300 "SL" 0 1
  /\ exists result : gmap string R,
       fst (calcUCNSource (HP := Bench.dense) (H3 := Toy.unit_he3) (BC := Toy.flat)
              (SP := Toy.accepting) parameters) = Some result
       /\ result !!! "20K shield flow"
          / HeCalc (hepak := Bench.dense) (Name "D") 0 "P" 101300 "SL" 0 1 * 1000 * 3600
          <= result !!! "Shield consumption"
       /\ result !!! "100K shield flow"
          / HeCalc (hepak := Bench.dense) (Name "D") 0 "P" 101300 "SL" 0 1 * 1000 * 3600
          <= result !!! "Shield consumption".
Proof.
  assert (Hrho : 0 < HeCalc (hepak := Bench.dense) (Name "D") 0 "P" 101300 "SL" 0 1)
    by (simpl; lra).
  split; [exact Hrho |].
  destruct (calcUCNSource_shield_consumption (HP := Bench.dense) (H3 := Toy.unit_he3)
              (BC := Toy.flat) (SP := Toy.accepting) parameters eq_refl)
    as (result & Hcalc & _ & Hbounds).
  exists result. split; [exact Hcalc |]. exact (Hbounds Hrho).
Defined.

(** * Further properties of the sweep *)

Section SweepOutput.
Context `{HP : hepak} `{H3 : he3pak} `{BC : BoilingCurve} `{SP : scipy}.

(** What a step prints: the value, then whatever the solve prints. *)
Lemma sweepPoint_printed (parameters : ParameterSet) (p : ParamName)
    (params : ParameterSet) (tr : Traces.t) (j : nat) :
  sweeping parameters p params ->
  snd (sweepPoint p (params, tr) j)
  = Sweep_value (sweepValue (parameters p) j) (unit (parameters p))
    :: snd (calcUCNSource (sweepSet parameters p j)).
Proof.
  intros Hsw. destruct (sweeping_step parameters p params j Hsw) as [Hset Hunit].
  assert (Hvalue : sweepValue (params p) j = sweepValue (parameters p) j).
  { destruct Hsw as [-> | [v ->]]; [reflexivity |].
    unfold sweepValue. now rewrite range_setValue. }
  unfold sweepPoint, print. rewrite bind_pair. cbv beta zeta.
  rewrite Hset, Hunit, Hvalue.
  destruct (calcUCNSource (sweepSet parameters p j)) as [res l].
  rewrite bind_pair.
  destruct (truthy res); cbn [ret fst snd]; now rewrite app_nil_r.
Qed.

Lemma forEach_sweepPoint_printed (parameters : ParameterSet) (p : ParamName) (js : list nat) :
  forall (params : ParameterSet) (tr : Traces.t),
    sweeping parameters p params ->
    snd (forEach js (sweepPoint p) (params, tr))
    = concat (map (fun j => Sweep_value (sweepValue (parameters p) j) (unit (parameters p))
                            :: snd (calcUCNSource (sweepSet parameters p j))) js).
Proof.
  induction js as [| j js IH]; intros params tr Hsw; [reflexivity |].
  cbn [forEach map concat].
  pose proof (sweepPoint_step parameters p params tr j Hsw) as Hstep.
  pose proof (sweepPoint_printed parameters p params tr j Hsw) as Hprinted.
  destruct (sweepPoint p (params, tr) j) as [st l]. cbn [fst snd] in Hstep, Hprinted.
  subst st l. rewrite bind_pair.
  rewrite <- (IH (sweepSet parameters p j)
                (if converged (sweepSet parameters p j)
                 then plotPoint parameters p tr j else tr))
    by (right; eexists; reflexivity).
  now destruct (forEach js _ _).
Qed.

(** X15.  What the sweep over a parameter prints: the name of the
    parameter, then for each of the eleven steps, in order, the value tried
    with the unit of the parameter, followed by whatever the solve at that
    value prints.  The value is announced before the solve, converged or
    not. *)
Theorem sweepParameter_printed (parameters : ParameterSet) (p : ParamName) :
  snd (sweepParameter parameters p)
  = Sweep_parameter (key p)
    :: concat (map (fun j => Sweep_value (sweepValue (parameters p) j) (unit (parameters p))
                             :: snd (calcUCNSource (sweepSet parameters p j)))
                 (seq 0 11)).
Proof.
  unfold sweepParameter, print. rewrite bind_pair. cbv beta zeta.
  rewrite <- (forEach_sweepPoint_printed parameters p (seq 0 11) parameters Traces.empty)
    by (left; reflexivity).
  destruct (forEach (seq 0 11) _ _) as [st l].
  rewrite bind_pair. cbn [ret snd]. now rewrite app_nil_r.
Qed.

Lemma convergedPoints_length (parameters : ParameterSet) (p : ParamName) :
  (length (convergedPoints parameters p) <= 11)%nat.
Proof.
  unfold convergedPoints.
  etransitivity; [apply List.filter_length_le |]. now rewrite length_seq.
Qed.

(** X16.  The ten lists of a plot always have one common length, the number
    of steps at which the solve converged, which is at most eleven: the
    curves of a panel can always be drawn against its x-values. *)
Theorem sweepParameter_lengths (parameters : ParameterSet) (p : ParamName) :
  let plot := fst (sweepParameter parameters p) in
  let n := length (convergedPoints parameters p) in
  (n <= 11)%nat
  /\ Forall (fun l : list R => length l = n)
       [ Traces.x plot; Traces.y plot; Traces.y2 plot; Traces.y3 plot; Traces.y4 plot;
         Traces.y5 plot; Traces.y6 plot; Traces.y7 plot; Traces.y8 plot; Traces.y9 plot ].
Proof.
  intros plot n. split; [apply convergedPoints_length |].
  subst plot n.
  repeat (constructor;
          [ match goal with
            | |- length (?list_of _) = _ =>
                erewrite (sweepParameter_list parameters p list_of);
                [apply length_map | reflexivity | intros tr j; reflexivity]
            end |]).
  constructor.
Qed.

(** X17.  The sweeps do not interfere.  From any state the loop over a
    parameter can be in, a step leaves as its state the table with the value
    of that parameter set to the value tried, and what it plots and prints
    is what [calcUCNSource] makes of that very table; in that table every
    other entry, and the range and unit of the parameter itself, are as in
    the original.  The panels of the whole sweep are, key by key in the
    order of the table, the sweeps over the original table. *)
Theorem sweep_isolated (parameters params : ParameterSet) (p : ParamName)
    (tr : Traces.t) (j : nat) :
  sweeping parameters p params ->
  let solved := sweepSet parameters p j in
  sweepPoint p (params, tr) j
  = ((solved,
      if truthy (fst (calcUCNSource solved))
      then plotPoint parameters p tr j else tr),
     Sweep_value (sweepValue (parameters p) j) (unit (parameters p))
     :: snd (calcUCNSource solved))
  /\ value (solved p) = sweepValue (parameters p) j
  /\ range (solved p) = range (parameters p)
  /\ unit (solved p) = unit (parameters p)
  /\ (forall q : ParamName, q <> p -> solved q = parameters q)
  /\ fst (sweep parameters) = map (fun p => (p, fst (sweepParameter parameters p))) keys.
Proof.
  intros Hsw solved. subst solved.
  split.
  { rewrite (surjective_pairing (sweepPoint p (params, tr) j)).
    rewrite (sweepPoint_step parameters p params tr j Hsw).
    rewrite (sweepPoint_printed parameters p params tr j Hsw).
    now rewrite truthy_calcUCNSource. }
  unfold sweepSet.
  rewrite value_setValue, range_setValue, unit_setValue.
  repeat split; [| apply sweep_panels].
  intros q Hq. unfold setValue.
  destruct (decide (q = p)); [contradiction | reflexivity].
Qed.

End SweepOutput.

(** * Properties of the load of the boiling curves *)

Section LoadingLaws.
Context `{HO : Host}.

Lemma boilingRow_inr (T : R) (line : list string) (TQ : R * R) (dT : R) :
  boilingRow T line = inr (TQ, dT) -> numericRow line /\ fst TQ = T.
Proof.
  unfold boilingRow, numericRow.
  destruct (line !! 1%nat) as [field1 |]; [| discriminate].
  destruct (pyfloat field1) as [q |] eqn:Hq; [| discriminate].
  destruct (line !! 0%nat) as [field0 |]; [| discriminate].
  destruct (pyfloat field0) as [d |] eqn:Hd; [| discriminate].
  intros [= <- <-]. split; [| reflexivity].
  exists field0, field1, d, q. auto.
Qed.

Lemma boilingRow_numeric (T : R) (line : list string) :
  numericRow line -> exists (TQ : R * R) (dT : R), boilingRow T line = inr (TQ, dT).
Proof.
  intros (field0 & field1 & d & q & H0 & H1 & Hd & Hq).
  unfold boilingRow. rewrite H1, Hq, H0, Hd. eauto.
Qed.

(** The rows of one file: the lists grow by one entry per row, in step. *)
Lemma boilingRows_inr (T : R) (rows : list (list string)) :
  forall data data' : list (R * R) * list R,
    boilingRows T rows data = inr data' ->
    Forall numericRow rows
    /\ exists (TQ : list (R * R)) (dT : list R),
         data' = (fst data ++ TQ, snd data ++ dT)
         /\ length TQ = length rows /\ length dT = length rows
         /\ Forall (fun pt => fst pt = T) TQ.
Proof.
  induction rows as [| line rows IH]; intros data data' Hload.
  - cbn in Hload. injection Hload as <-. split; [constructor |].
    exists [], []. rewrite !app_nil_r. destruct data. repeat split. constructor.
  - cbn [boilingRows] in Hload.
    destruct (boilingRow T line) as [e | [TQ1 dT1]] eqn:Hrow; [discriminate |].
    apply boilingRow_inr in Hrow as [Hnum HT].
    apply IH in Hload as (Hrows & TQ & dT & -> & HlenTQ & HlendT & Htemp).
    split; [now constructor |].
    exists (TQ1 :: TQ), (dT1 :: dT). cbn [fst snd length].
    rewrite <- !app_assoc. repeat split; [lia | lia | now constructor].
Qed.

Lemma boilingRows_numeric (T : R) (rows : list (list string)) :
  Forall numericRow rows ->
  forall data, exists data', boilingRows T rows data = inr data'.
Proof.
  induction 1 as [| line rows Hline _ IH]; intros data; [now exists data |].
  cbn [boilingRows].
  destruct (boilingRow_numeric T line Hline) as (TQ & dT & ->). apply IH.
Qed.

Lemma boilingTables_inr (files : list (R * string)) :
  forall data data' : list (R * R) * list R,
    boilingTables files data = inr data' ->
    Forall readable files
    /\ exists (TQ : list (R * R)) (dT : list R),
         data' = (fst data ++ TQ, snd data ++ dT)
         /\ length TQ = length dT
         /\ Forall (fun pt => In (fst pt) (map fst files)) TQ.
Proof.
  induction files as [| [T filename] files IH]; intros data data' Hload.
  - cbn in Hload. injection Hload as <-. split; [constructor |].
    exists [], []. rewrite !app_nil_r. destruct data. repeat split. constructor.
  - cbn [boilingTables] in Hload.
    destruct (csv_rows _) as [rows |] eqn:Hopen; [| discriminate].
    destruct (boilingRows T rows data) as [e | data1] eqn:Hrows; [discriminate |].
    apply boilingRows_inr in Hrows as (Hnum & TQ1 & dT1 & -> & HlenTQ & HlendT & Htemp).
    apply IH in Hload as (Hfiles & TQ & dT & -> & Hlen & Htemps).
    split; [constructor; [now exists rows | exact Hfiles] |].
    exists (TQ1 ++ TQ), (dT1 ++ dT). cbn [fst snd].
    rewrite <- !app_assoc, !length_app. repeat split; [lia |].
    apply Forall_app. split.
    + eapply Forall_impl; [exact Htemp |]. intros pt ->. now left.
    + eapply Forall_impl; [exact Htemps |]. intros pt Hin. now right.
Qed.

Lemma boilingTables_readable (files : list (R * string)) :
  Forall readable files ->
  forall data, exists data', boilingTables files data = inr data'.
Proof.
  induction 1 as [| [T filename] files (rows & Hopen & Hnum) _ IH]; intros data;
    [now exists data |].
  cbn [boilingTables]. cbn [snd] in Hopen. rewrite Hopen.
  destruct (boilingRows_numeric T rows Hnum data) as [data1 ->]. apply IH.
Qed.

(** X18.  When the load succeeds, the list of points and the list of
    temperature differences it hands to the interpolator have the same
    length, and every point carries one of the seven bath temperatures of
    the data files. *)
Theorem loadHe3boilingData_lists (TQdata : list (R * R)) (dTdata : list R) :
  loadHe3boilingData = inr (TQdata, dTdata) ->
  length TQdata = length dTdata
  /\ Forall (fun pt => In (fst pt) [0.55; 0.6; 0.7; 0.8; 1; 1.48; 2]) TQdata.
Proof.
  unfold loadHe3boilingData. intros Hload.
  apply boilingTables_inr in Hload as (_ & TQ & dT & Hdata & Hlen & Htemps).
  cbn [fst snd app] in Hdata. injection Hdata as -> ->.
  split; [exact Hlen | exact Htemps].
Qed.

(** X19.  The load is all or nothing.  It succeeds exactly when each of the
    seven files opens and each row of each file has at least two fields of
    which the first two are numbers: a missing file, a blank line or a field
    that is not a number anywhere ends the load with an exception and no
    curve. *)
Theorem loadHe3boilingData_succeeds :
  (exists data, loadHe3boilingData = inr data) <-> Forall readable boilingFiles.
Proof.
  unfold loadHe3boilingData. split.
  - intros [data Hload]. now apply boilingTables_inr in Hload.
  - intros Hfiles. apply (boilingTables_readable _ Hfiles).
Qed.

End LoadingLaws.

(** X18, at an input: seven files of two numeric rows each. *)
Lemma loadHe3boilingData_lists_witness :
  exists (TQdata : list (R * R)) (dTdata : list R),
    loadHe3boilingData (HO := Bench.two_rows) = inr (TQdata, dTdata)
    /\ length TQdata = length dTdata.
Proof.
  eexists; eexists. split; [reflexivity |].
  apply (loadHe3boilingData_lists (HO := Bench.two_rows)). reflexivity.
Defined.

(** X19, at an input: a blank line in the data loses the curve. *)
Lemma loadHe3boilingData_succeeds_witness :
  loadHe3boilingData (HO := Bench.blank_line) = inl IndexError
  /\ ~ exists data, loadHe3boilingData (HO := Bench.blank_line) = inr data.
Proof.
  split; [reflexivity |].
  intros Hload.
  apply (loadHe3boilingData_succeeds (HO := Bench.blank_line)) in Hload.
  apply Forall_inv in Hload. destruct Hload as (rows & Hopen & Hnum).
  injection Hopen as <-.
  apply Forall_inv_tail, Forall_inv in Hnum.
  destruct Hnum as (field0 & _ & _ & _ & H0 & _). discriminate.
Defined.

(** * Properties of the script *)

Section ScriptLaws.
Context `{HP : hepak} `{H3 : he3pak} `{BC : BoilingCurve} `{SP : scipy}.

(** X20.  The script has no guard on the first solve.  If the root finder
    does not converge for the table, the script ends with a [TypeError]
    right after the message that the solution did not converge: no summary
    is printed and no sweep is run.  If it converges, the seven summary
    lines follow what the solve printed, and the sweep gives one panel per
    key of the table. *)
Theorem script_outcome (parameters : ParameterSet) :
  if converged parameters
  then exists result : gmap string R,
         fst (calcUCNSource parameters) = Some result
         /\ script parameters
            = (inr (map (fun p => (p, fst (sweepParameter parameters p))) keys),
               map Said (snd (calcUCNSource parameters)) ++ summary result
               ++ map Said (snd (sweep parameters)))
  else script parameters
       = (inl TypeError,
          map Said (snd (solution parameters) ++ [Solution_did_not_converge])).
Proof.
  destruct (converged parameters) eqn:Hs.
  - destruct (calcUCNSource_converged parameters Hs) as (r & l & Hcalc & _).
    exists r. unfold script. rewrite Hcalc. cbn [fst snd].
    split; [reflexivity |].
    rewrite <- sweep_panels. now destruct (sweep parameters).
  - unfold script. now rewrite (calcUCNSource_not_converged parameters Hs).
Qed.

End ScriptLaws.

(** X20, at an input: the default table with a root finder that never
    converges. *)
Lemma script_outcome_witness :
  script (HP := Toy.linear) (H3 := Toy.unit_he3) (BC := Toy.flat) (SP := Toy.failing)
    parameters
  = (inl TypeError, [Said Solution_did_not_converge]).
Proof.
  exact (script_outcome (HP := Toy.linear) (H3 := Toy.unit_he3) (BC := Toy.flat)
           (SP := Toy.failing) parameters).
Defined.

(** X17, at an input: the first step of the sweep over the beam heating,
    from the table as cloned, with a root finder that never converges. *)
Lemma sweep_isolated_witness :
  sweeping parameters Beam_heating parameters
  /\ sweepPoint (HP := Toy.linear) (H3 := Toy.unit_he3) (BC := Toy.flat) (SP := Toy.failing)
       Beam_heating (parameters, Traces.empty) 0
     = ((sweepSet parameters Beam_heating 0, Traces.empty),
        [Sweep_value (sweepValue (parameters Beam_heating) 0) "W";
         Solution_did_not_converge]).
Proof.
  assert (Hsw : sweeping parameters Beam_heating parameters) by (left; reflexivity).
  split; [exact Hsw |].
  exact (proj1 (sweep_isolated (HP := Toy.linear) (H3 := Toy.unit_he3) (BC := Toy.flat)
                  (SP := Toy.failing) parameters parameters Beam_heating
                  Traces.empty 0 Hsw)).
Defined.
